(** * Stock Health Monitor: the dashboard page of [streamlit_app.py]

    A shallow embedding of the dashboard pipeline (source lines 45-201):
    the derived columns ([AVG_DAILY_USAGE], [DAYS_UNTIL_STOCKOUT],
    [STOCK_STATUS]), the empty-frame guard, the heatmap pivot, the alert
    table with its top-priority narrative and the reorder list with its
    roll-ups and CSV export.

    Numbers.  The spec speaks of reals; a float64 column is modelled by the
    exact rationals [Q], extended with the three values numpy produces when
    a division has a zero divisor ([inf], [-inf], [nan]).  Rounding error
    and overflow of binary64 are outside this model; where the range of a
    double matters (is the horizon finite?) lines 66-69 are read a second
    time in binary64 itself ([calc_days64]).  Integer columns are [Z]; a sum
    over an int64 column wraps at 2^63 ([series_sum]).

    Library calls.  A [DataFrame] is the list of its rows in index order.
    [Series.replace], [Series.round], [DataFrame.apply], boolean masks,
    [head], [pivot_table] and [to_csv] are modelled by what pandas
    documents for them.  [sort_values] is called with the default
    [kind='quicksort'], which pandas documents as not stable: it is a
    parameter of the development, constrained by its contract only.
    numpy's quicksort itself ([quicksort_sort_values]) is followed where
    the order of tied rows is in question. *)

From Stdlib Require Import ZArith QArith Qround Qminmax Bool List String.
From Stdlib Require Import Permutation Sorted Lia Lqa SpecFloat.
Import ListNotations.

Local Open Scope Q_scope.

(** ** float64 values, idealised *)

Inductive fval : Type :=
| Fin (q : Q)
| PosInf
| NegInf
| NaN.

(** Equality of values (numpy's [==] on non-[nan] entries; used to state
    results up to the representation of a rational). *)
Definition feq (a b : fval) : Prop :=
  match a, b with
  | Fin x, Fin y => x == y
  | PosInf, PosInf => True
  | NegInf, NegInf => True
  | NaN, NaN => True
  | _, _ => False
  end.

Definition is_finite (a : fval) : bool :=
  match a with Fin _ => true | _ => false end.

(** [pd.isna] *)
Definition isna (a : fval) : bool :=
  match a with NaN => true | _ => false end.

(** [val <= c] for a Python number [c]; any comparison with [nan] is False. *)
Definition fle_const (a : fval) (c : Q) : bool :=
  match a with
  | Fin q => Qle_bool q c
  | NegInf => true
  | PosInf => false
  | NaN => false
  end.

(** [np.rint]: nearest integer, halves to the even neighbour. *)
Definition rint (q : Q) : Z :=
  let f := Qfloor q in
  match Qcompare (q - inject_Z f) (1 # 2) with
  | Lt => f
  | Gt => (f + 1)%Z
  | Eq => if Z.even f then f else (f + 1)%Z
  end.

(** [np.round(x, 1)] is [rint(x * 10) / 10]. *)
Definition round1 (q : Q) : Q := rint (q * 10) # 10.

(** [Series.round(1)], elementwise; non-finite entries are unchanged. *)
Definition fround1 (a : fval) : fval :=
  match a with
  | Fin q => Fin (round1 q)
  | other => other
  end.

(** Elementwise [int_column / float_column]: numpy gives [inf], [-inf] or
    [nan] on a zero divisor and raises nothing. *)
Definition col_div (num : Z) (den : Q) : fval :=
  if Qeq_bool den 0 then
    (if (0 <? num)%Z then PosInf
     else if (num <? 0)%Z then NegInf
     else NaN)
  else Fin (inject_Z num / den).

(** [Series.replace(to_replace, value)], elementwise. *)
Definition replace (to_replace value x : Q) : Q :=
  if Qeq_bool x to_replace then value else x.

(** ** The loaded frame *)

(** One row of the query of [load_data] (lines 49-56); Snowpark's
    [to_pandas] upper-cases the column names. *)
Record Row : Type := mkRow {
  LOCATION : string;
  ITEM : string;
  DATE : string;
  CLOSING_STOCK : Z;
  ISSUED : Z;
  AVG_DAILY_USAGE : Q;
  DAYS_UNTIL_STOCKOUT : fval;
  STOCK_STATUS : string;
  SUGGESTED_REORDER_QTY : Z;
  LEAD_TIME_DAYS : Z;
  REORDER_LEVEL : Z
}.

Definition DataFrame : Type := list Row.

Definition set_AVG_DAILY_USAGE (r : Row) (v : Q) : Row :=
  mkRow (LOCATION r) (ITEM r) (DATE r) (CLOSING_STOCK r) (ISSUED r) v
        (DAYS_UNTIL_STOCKOUT r) (STOCK_STATUS r) (SUGGESTED_REORDER_QTY r)
        (LEAD_TIME_DAYS r) (REORDER_LEVEL r).

Definition set_DAYS_UNTIL_STOCKOUT (r : Row) (v : fval) : Row :=
  mkRow (LOCATION r) (ITEM r) (DATE r) (CLOSING_STOCK r) (ISSUED r)
        (AVG_DAILY_USAGE r) v (STOCK_STATUS r) (SUGGESTED_REORDER_QTY r)
        (LEAD_TIME_DAYS r) (REORDER_LEVEL r).

Definition set_STOCK_STATUS (r : Row) (v : string) : Row :=
  mkRow (LOCATION r) (ITEM r) (DATE r) (CLOSING_STOCK r) (ISSUED r)
        (AVG_DAILY_USAGE r) (DAYS_UNTIL_STOCKOUT r) v
        (SUGGESTED_REORDER_QTY r) (LEAD_TIME_DAYS r) (REORDER_LEVEL r).

(** ** Derived columns (lines 66-82) *)

Definition epsilon : Q := 1 # 100.

(** Line 66: [df["AVG_DAILY_USAGE"] = df["AVG_DAILY_USAGE"].replace(0, 0.01)]. *)
Definition fix_usage (r : Row) : Row :=
  set_AVG_DAILY_USAGE r (replace 0 epsilon (AVG_DAILY_USAGE r)).

(** Line 69: [df["DAYS_UNTIL_STOCKOUT"] =
    (df["CLOSING_STOCK"] / df["AVG_DAILY_USAGE"]).round(1)]; the divisor is
    the column as line 66 left it. *)
Definition calc_days (r : Row) : Row :=
  set_DAYS_UNTIL_STOCKOUT r
    (fround1 (col_div (CLOSING_STOCK r) (AVG_DAILY_USAGE r))).

(** Lines 72-80. *)
Definition classify_stock (row : Row) : string :=
  if fle_const (DAYS_UNTIL_STOCKOUT row) 2 then "CRITICAL"%string
  else if fle_const (DAYS_UNTIL_STOCKOUT row) 5 then "WARNING"%string
  else if fle_const (DAYS_UNTIL_STOCKOUT row) 10 then "HEALTHY"%string
  else "OVERSTOCK"%string.

(** Line 82: [df["STOCK_STATUS"] = df.apply(classify_stock, axis=1)]. *)
Definition assign_status (r : Row) : Row :=
  set_STOCK_STATUS r (classify_stock r).

Definition derive_row (r : Row) : Row :=
  assign_status (calc_days (fix_usage r)).

(** The three column assignments, each over the whole frame. *)
Definition derive (df : DataFrame) : DataFrame :=
  map assign_status (map calc_days (map fix_usage df)).

(** Spec wording of the depletion horizon (spec 4.1), for comparison with
    [calc_days]: [round(closing_stock / max(avg_daily_usage, epsilon), 1)]. *)
Definition spec_days_until_stockout (closing_stock : Z) (avg_daily_usage : Q) : fval :=
  Fin (round1 (inject_Z closing_stock / Qmax avg_daily_usage epsilon)).

(** ** Lines 66-69 in binary64 *)

(** The same two lines on IEEE 754 doubles ([prec = 53], [emax = 1024]),
    with the operations numpy performs: the int64 stock is converted to
    float64, the division is the correctly rounded one, and
    [Series.round(1)] is numpy's [round]: multiply by 10.0, [rint], divide
    by 10.0. *)
Section Binary64.
Local Open Scope Z_scope.

Definition float64 : Type := spec_float.

Definition f64_zero : float64 := S754_zero false.

(** int64 to float64, to the nearest double. *)
Definition f64_of_int64 (z : Z) : float64 := binary_normalize 53 1024 z 0 false.

Definition f64_div : float64 -> float64 -> float64 := SFdiv 53 1024.

Definition f64_mul : float64 -> float64 -> float64 := SFmul 53 1024.

(** [np.rint]: nearest integer, halves to the even neighbour, sign kept. *)
Definition f64_rint (x : float64) : float64 :=
  match x with
  | S754_finite s m (Zneg p) =>
      let mrs := iter_pos shr_1 p (Build_shr_record (Zpos m) false false) in
      let k := round_nearest_even (shr_m mrs) (loc_of_shr_record mrs) in
      binary_normalize 53 1024 (cond_Zopp s k) 0 s
  | _ => x
  end.

(** The literals [10.0] and [0.01]: the doubles nearest to 10 and to
    1/100. *)
Definition f64_ten : float64 := f64_of_int64 10.

Definition f64_epsilon : float64 := f64_div (f64_of_int64 1) (f64_of_int64 100).

Definition f64_round1 (x : float64) : float64 :=
  f64_div (f64_rint (f64_mul x f64_ten)) f64_ten.

Definition replace64 (to_replace value x : float64) : float64 :=
  if SFeqb x to_replace then value else x.

(** Line 66 on one entry of the usage column. *)
Definition fix_usage64 (usage : float64) : float64 :=
  replace64 f64_zero f64_epsilon usage.

(** Line 69 on one row: the stock and the usage as line 66 left it. *)
Definition calc_days64 (closing : Z) (usage : float64) : float64 :=
  f64_round1 (f64_div (f64_of_int64 closing) (fix_usage64 usage)).

(** The double nearest to a rational whose numerator and denominator are
    below 2^53, and the number a double stands for. *)
Definition f64_of_Q (q : Q) : float64 :=
  f64_div (f64_of_int64 (Qnum q)) (f64_of_int64 (Zpos (Qden q))).

Definition f64_value (x : float64) : fval :=
  match x with
  | S754_zero _ => Fin 0%Q
  | S754_finite s m e => Fin (inject_Z (cond_Zopp s (Zpos m)) * Qpower 2 e)%Q
  | S754_infinity s => if s then NegInf else PosInf
  | S754_nan => NaN
  end.

Definition f64_is_finite (x : float64) : bool :=
  match x with
  | S754_zero _ | S754_finite _ _ _ => true
  | _ => false
  end.

(** Neither NaN nor of the other sign. *)
Definition f64_signed (s : bool) (x : float64) : Prop :=
  match x with
  | S754_zero s' | S754_infinity s' | S754_finite s' _ _ => s' = s
  | S754_nan => False
  end.

(** Zero or finite of sign [s], with exponent and binary magnitude at most
    [B]: for a finite [m * 2^e], [e <= B] and [m < 2^(B - e)]. *)
Definition f64_within (B : Z) (s : bool) (x : float64) : Prop :=
  match x with
  | S754_zero s' => s' = s
  | S754_finite s' m e => s' = s /\ e <= B /\ Zpos (digits2_pos m) + e <= B
  | _ => False
  end.
End Binary64.

(** ** Frame operations *)

(** Boolean mask [df[col] == value] on a string column. *)
Definition status_is (value : string) (r : Row) : bool :=
  String.eqb (STOCK_STATUS r) value.

(** [Series.isin(values)]. *)
Definition isin (values : list string) (s : string) : bool :=
  existsb (String.eqb s) values.

(** [DataFrame.head(n)]. *)
Definition head (n : nat) (df : DataFrame) : DataFrame := firstn n df.

(** [Series.nunique()] on a string column. *)
Definition nunique (col : list string) : nat :=
  List.length (nodup string_dec col).

(** Ascending order of a float column under [sort_values]
    ([na_position='last']). *)
Definition key_leb (a b : fval) : bool :=
  match a, b with
  | _, NaN => true
  | NaN, _ => false
  | NegInf, _ => true
  | _, NegInf => false
  | _, PosInf => true
  | PosInf, _ => false
  | Fin x, Fin y => Qle_bool x y
  end.

Definition key_le (a b : fval) : Prop := key_leb a b = true.

(** Rows in ascending order of a column. *)
Definition ascending (key : Row -> fval) (df : DataFrame) : Prop :=
  StronglySorted (fun a b => key_le (key a) (key b)) df.

(** Rows with equal keys keep the relative order they had in [input]:
    for every key value, the rows carrying it form the same sequence in
    [output] as in [input]. *)
Definition same_key (key : Row -> fval) (v : fval) (r : Row) : bool :=
  key_leb (key r) v && key_leb v (key r).

Definition ties_keep_order (key : Row -> fval) (input output : DataFrame) : Prop :=
  forall v : fval, filter (same_key key v) output = filter (same_key key v) input.

(** What pandas promises of [df.sort_values(col)] for every sort kind:
    the same rows, in ascending order of the column. *)
Definition sort_values_contract
    (sort_values : (Row -> fval) -> DataFrame -> DataFrame) : Prop :=
  forall key df,
    Permutation df (sort_values key df) /\ ascending key (sort_values key df).

(** A sort that meets the contract, by insertion from the right. *)
Section InsertionSort.
Context {A : Type} (cmp : A -> A -> bool).

Fixpoint insert_by (x : A) (l : list A) : list A :=
  match l with
  | [] => [x]
  | y :: l' => if cmp x y then x :: y :: l' else y :: insert_by x l'
  end.

Definition sort_by (l : list A) : list A := fold_right insert_by [] l.
End InsertionSort.

(** Ties stay in input order (what [kind='stable'] would give). *)
Definition stable_sort_values (key : Row -> fval) (df : DataFrame) : DataFrame :=
  sort_by (fun a b => key_leb (key a) (key b)) df.

(** ** [sort_values] as pandas and numpy run it (line 144) *)

(** [DataFrame.sort_values(col)] computes [nargsort] of the column and takes
    the rows in that order; [nargsort] sets the missing values aside and
    calls [argsort(kind='quicksort')] on the rest, which for a float64
    column is numpy's [aquicksort_double]: an introsort on an array of
    indices ([tosort]), by median-of-three quicksort down to partitions of
    at most 17 entries, insertion sort on those, and heapsort once the
    depth limit is used up.  Pointers into [tosort] are offsets; every loop
    of the C code runs at most once per entry, which is its fuel here. *)
Section Aquicksort.
Variable v : list fval.

(** [npy::double_tag::less]: [a < b], with [nan] above everything. *)
Definition npy_less (a b : fval) : bool :=
  match a, b with
  | NaN, _ => false
  | _, NaN => true
  | _, _ => negb (key_leb b a)
  end.

(** [*p] and [*p = x]. *)
Definition load (tosort : list nat) (p : nat) : nat := nth p tosort 0%nat.

Fixpoint store (tosort : list nat) (p x : nat) : list nat :=
  match tosort, p with
  | [], _ => []
  | _ :: rest, O => x :: rest
  | y :: rest, S p' => y :: store rest p' x
  end.

Definition INTP_SWAP (tosort : list nat) (p q : nat) : list nat :=
  store (store tosort p (load tosort q)) q (load tosort p).

(** [v[*p]] *)
Definition val (tosort : list nat) (p : nat) : fval :=
  nth (load tosort p) v NaN.

Definition SMALL_QUICKSORT : nat := 16.

(** [do { ++pi; } while (less(v[*pi], vp));] *)
Fixpoint scan_up (fuel : nat) (tosort : list nat) (vp : fval) (pi : nat) : nat :=
  match fuel with
  | O => pi
  | S fuel' =>
      if npy_less (val tosort (S pi)) vp then scan_up fuel' tosort vp (S pi)
      else S pi
  end.

(** [do { --pj; } while (less(vp, v[*pj]));] *)
Fixpoint scan_down (fuel : nat) (tosort : list nat) (vp : fval) (pj : nat) : nat :=
  match fuel with
  | O => pj
  | S fuel' =>
      if npy_less vp (val tosort (pj - 1)) then scan_down fuel' tosort vp (pj - 1)
      else (pj - 1)%nat
  end.

(** The [for (;;)] loop of the partition. *)
Fixpoint partition_loop (fuel : nat) (tosort : list nat) (vp : fval)
    (pi pj : nat) : list nat * nat :=
  match fuel with
  | O => (tosort, pi)
  | S fuel' =>
      let pi := scan_up (List.length tosort) tosort vp pi in
      let pj := scan_down (List.length tosort) tosort vp pj in
      if (pj <=? pi)%nat then (tosort, pi)
      else partition_loop fuel' (INTP_SWAP tosort pi pj) vp pi pj
  end.

(** One pass of the [while ((pr - pl) > SMALL_QUICKSORT)] body up to the
    final swap: the median of three goes to [pr - 1] as the pivot, and the
    pivot ends at the returned position. *)
Definition partition (tosort : list nat) (pl pr : nat) : list nat * nat :=
  let pm := (pl + Nat.div2 (pr - pl))%nat in
  let tosort :=
    if npy_less (val tosort pm) (val tosort pl) then INTP_SWAP tosort pm pl
    else tosort in
  let tosort :=
    if npy_less (val tosort pr) (val tosort pm) then INTP_SWAP tosort pr pm
    else tosort in
  let tosort :=
    if npy_less (val tosort pm) (val tosort pl) then INTP_SWAP tosort pm pl
    else tosort in
  let vp := val tosort pm in
  let tosort := INTP_SWAP tosort pm (pr - 1) in
  let '(tosort, pi) :=
    partition_loop (List.length tosort) tosort vp pl (pr - 1) in
  (INTP_SWAP tosort pi (pr - 1), pi).

(** [while (pj > pl && less(vp, v[*pk])) { *pj-- = *pk--; }] *)
Fixpoint shift_up (fuel : nat) (tosort : list nat) (vp : fval) (pl pj : nat)
    : list nat * nat :=
  match fuel with
  | O => (tosort, pj)
  | S fuel' =>
      if (pl <? pj)%nat && npy_less vp (val tosort (pj - 1)) then
        shift_up fuel' (store tosort pj (load tosort (pj - 1))) vp pl (pj - 1)
      else (tosort, pj)
  end.

(** [for (pi = pl + 1; pi <= pr; ++pi)], with [count] entries to go. *)
Fixpoint insertion_loop (count : nat) (tosort : list nat) (pl pi : nat) : list nat :=
  match count with
  | O => tosort
  | S count' =>
      let vi := load tosort pi in
      let vp := nth vi v NaN in
      let '(tosort, pj) := shift_up (List.length tosort) tosort vp pl pi in
      insertion_loop count' (store tosort pj vi) pl (S pi)
  end.

Definition insertion_sort (tosort : list nat) (pl pr : nat) : list nat :=
  insertion_loop (pr - pl) tosort pl (S pl).

(** [aheapsort_] on the [n] entries from [pl]; the heap is indexed from 1,
    [a[j]] being the entry at offset [pl + j - 1]. *)
Definition heap_at (pl j : nat) : nat := (pl + j - 1)%nat.

(** [for (i = .., j = ..; j <= n;) { .. } a[i] = tmp;] *)
Fixpoint sift (fuel : nat) (tosort : list nat) (pl tmp n i j : nat) : list nat :=
  match fuel with
  | O => store tosort (heap_at pl i) tmp
  | S fuel' =>
      if (n <? j)%nat then store tosort (heap_at pl i) tmp
      else
        let j :=
          if (j <? n)%nat
             && npy_less (val tosort (heap_at pl j)) (val tosort (heap_at pl (S j)))
          then S j else j in
        if npy_less (nth tmp v NaN) (val tosort (heap_at pl j)) then
          sift fuel' (store tosort (heap_at pl i) (load tosort (heap_at pl j)))
               pl tmp n j (j + j)
        else store tosort (heap_at pl i) tmp
  end.

(** [for (l = n >> 1; l > 0; --l)] *)
Fixpoint heapify (l : nat) (tosort : list nat) (pl n : nat) : list nat :=
  match l with
  | O => tosort
  | S l' =>
      heapify l' (sift n tosort pl (load tosort (heap_at pl l)) n l (l + l)) pl n
  end.

(** [for (; n > 1;)] *)
Fixpoint extract_max (n : nat) (tosort : list nat) (pl : nat) : list nat :=
  match n with
  | S (S _ as n') =>
      let tmp := load tosort (heap_at pl n) in
      let tosort := store tosort (heap_at pl n) (load tosort (heap_at pl 1)) in
      extract_max n' (sift n tosort pl tmp n' 1 2) pl
  | _ => tosort
  end.

Definition aheapsort (tosort : list nat) (pl n : nat) : list nat :=
  extract_max n (heapify (Nat.div2 n) tosort pl n) pl.

(** The inner [while]: partition, push the larger side with the new depth,
    go on with the smaller. *)
Fixpoint partition_down (fuel : nat) (tosort : list nat) (pl pr : nat)
    (cdepth : Z) (stack : list (nat * nat * Z))
    : list nat * nat * nat * list (nat * nat * Z) :=
  match fuel with
  | O => (tosort, pl, pr, stack)
  | S fuel' =>
      if (SMALL_QUICKSORT <? pr - pl)%nat then
        let '(tosort, pi) := partition tosort pl pr in
        let cdepth := (cdepth - 1)%Z in
        if (pi - pl <? pr - pi)%nat then
          partition_down fuel' tosort pl (pi - 1) cdepth
                         ((S pi, pr, cdepth) :: stack)
        else
          partition_down fuel' tosort (S pi) pr cdepth
                         ((pl, (pi - 1)%nat, cdepth) :: stack)
      else (tosort, pl, pr, stack)
  end.

(** The outer [while (1)]: sort the current range, then pop the next. *)
Fixpoint aquicksort_loop (fuel : nat) (tosort : list nat) (pl pr : nat)
    (cdepth : Z) (stack : list (nat * nat * Z)) : list nat :=
  match fuel with
  | O => tosort
  | S fuel' =>
      let '(tosort, stack) :=
        if (cdepth <? 0)%Z then (aheapsort tosort pl (pr - pl + 1), stack)
        else
          let '(tosort, pl, pr, stack) :=
            partition_down (List.length tosort) tosort pl pr cdepth stack in
          (insertion_sort tosort pl pr, stack) in
      match stack with
      | [] => tosort
      | (pl, pr, cdepth) :: stack =>
          aquicksort_loop fuel' tosort pl pr cdepth stack
      end
  end.
End Aquicksort.

(** [np.argsort(v, kind='quicksort')]: [tosort] starts as [0, .., num-1] and
    the depth limit as twice the position of the highest bit of [num]. *)
Definition aquicksort (v : list fval) : list nat :=
  let num := List.length v in
  aquicksort_loop v (S num) (seq 0 num) 0 (num - 1)
                  (2 * Z.log2 (Z.of_nat num))%Z [].

(** [pandas.core.sorting.nargsort] with [ascending=True] and
    [na_position='last']. *)
Definition nargsort (items : list fval) : list nat :=
  let idx := seq 0 (List.length items) in
  let mask := fun i => isna (nth i items NaN) in
  let non_nan_idx := filter (fun i => negb (mask i)) idx in
  let non_nans := map (fun i => nth i items NaN) non_nan_idx in
  let nan_idx := filter mask idx in
  (map (fun k => nth k non_nan_idx 0%nat) (aquicksort non_nans) ++ nan_idx)%list.

(** [df.take(indexer)] *)
Definition take (df : DataFrame) (indexer : list nat) : DataFrame :=
  flat_map (fun i => match nth_error df i with
                     | Some r => [r]
                     | None => []
                     end) indexer.

(** [df.sort_values(col)] with the default [kind='quicksort']. *)
Definition quicksort_sort_values (key : Row -> fval) (df : DataFrame) : DataFrame :=
  take df (nargsort (map key df)).




(** ** Heatmap pivot (lines 111-127) *)

Definition fadd (a b : fval) : fval :=
  match a, b with
  | NaN, _ | _, NaN => NaN
  | PosInf, NegInf | NegInf, PosInf => NaN
  | PosInf, _ | _, PosInf => PosInf
  | NegInf, _ | _, NegInf => NegInf
  | Fin x, Fin y => Fin (x + y)
  end.

Definition fsum (l : list fval) : fval := fold_right fadd (Fin 0) l.

Definition fdiv_count (s : fval) (n : nat) : fval :=
  match s with
  | Fin q => Fin (q / inject_Z (Z.of_nat n))
  | other => other
  end.

(** [aggfunc='mean'] over the values of one group: [nan] entries are
    skipped, and a group with no value has no mean. *)
Definition group_mean (vals : list fval) : fval :=
  let present := filter (fun v => negb (isna v)) vals in
  match present with
  | [] => NaN
  | _ :: _ => fdiv_count (fsum present) (List.length present)
  end.

(** Sorted distinct labels of a string column. *)
Definition sorted_unique (col : list string) : list string :=
  nodup string_dec (sort_by String.leb col).

Record PivotTable : Type := mkPivot {
  pt_index : list string;          (* ITEM labels, one per grid row *)
  pt_columns : list string;        (* LOCATION labels, one per grid column *)
  pt_values : list (list fval)     (* row-major cells; [NaN] where no row contributes *)
}.

Definition in_group (item location : string) (r : Row) : bool :=
  String.eqb (ITEM r) item && String.eqb (LOCATION r) location.

(** [df.pivot_table(index='ITEM', columns='LOCATION',
    values='DAYS_UNTIL_STOCKOUT', aggfunc='mean')]. *)
Definition pivot_table (df : DataFrame) : PivotTable :=
  let items := sorted_unique (map ITEM df) in
  let locations := sorted_unique (map LOCATION df) in
  mkPivot items locations
    (map (fun i =>
       map (fun l =>
         group_mean (map DAYS_UNTIL_STOCKOUT (filter (in_group i l) df)))
         locations)
       items).

Fixpoint index_of (x : string) (l : list string) : option nat :=
  match l with
  | [] => None
  | y :: l' =>
      if String.eqb x y then Some O
      else option_map S (index_of x l')
  end.

(** The cell at labels [(item, location)]; [None] when the grid has no such
    row or column. *)
Definition pt_cell (pt : PivotTable) (item location : string) : option fval :=
  match index_of item (pt_index pt), index_of location (pt_columns pt) with
  | Some i, Some j =>
      match nth_error (pt_values pt) i with
      | Some cells => nth_error cells j
      | None => None
      end
  | _, _ => None
  end.

(** Lines 115-125. *)
Definition color_days (val : fval) : string :=
  if isna val then ""%string
  else if fle_const val 2 then
    "background-color: #ff6b6b; color: white; font-weight: bold"%string
  else if fle_const val 5 then
    "background-color: #feca57; color: black; font-weight: bold"%string
  else if fle_const val 10 then
    "background-color: #48dbfb; color: black"%string
  else "background-color: #1dd1a1; color: white"%string.

(** Line 127: [heatmap_data.style.applymap(color_days)]. *)
Definition applymap_color_days (pt : PivotTable) : list (list string) :=
  map (map color_days) (pt_values pt).

(** ** Alert and reorder views (lines 143-201) *)

(** The columns of [display_cols] (lines 154-155), in that order. *)
Record AlertCols : Type := mkAlertCols {
  al_LOCATION : string;
  al_ITEM : string;
  al_CLOSING_STOCK : Z;
  al_AVG_DAILY_USAGE : Q;
  al_DAYS_UNTIL_STOCKOUT : fval;
  al_STOCK_STATUS : string;
  al_SUGGESTED_REORDER_QTY : Z
}.

Definition display_cols (r : Row) : AlertCols :=
  mkAlertCols (LOCATION r) (ITEM r) (CLOSING_STOCK r) (AVG_DAILY_USAGE r)
              (DAYS_UNTIL_STOCKOUT r) (STOCK_STATUS r)
              (SUGGESTED_REORDER_QTY r).

(** Lines 147-152; [len(row)] is the seven displayed columns. *)
Definition highlight_status (row : AlertCols) : list string :=
  if String.eqb (al_STOCK_STATUS row) "CRITICAL" then
    repeat "background-color: #ffcdd2"%string 7
  else if String.eqb (al_STOCK_STATUS row) "WARNING" then
    repeat "background-color: #fff9c4"%string 7
  else repeat ""%string 7.

(** The values interpolated into one [st.error] message (lines 165-171):
    [:.1f] rounds to one decimal, [:.0f] to an integer (both to nearest,
    halves to even), [int()] of an integer column is the integer. *)
Record PriorityAction : Type := mkPriorityAction {
  pa_ITEM : string;
  pa_LOCATION : string;
  pa_days_remaining : fval;        (* row['DAYS_UNTIL_STOCKOUT']:.1f *)
  pa_current_stock : Z;            (* int(row['CLOSING_STOCK']) *)
  pa_daily_usage : Z;              (* row['AVG_DAILY_USAGE']:.0f *)
  pa_suggested_order : Z           (* int(row['SUGGESTED_REORDER_QTY']) *)
}.

Definition priority_action (row : Row) : PriorityAction :=
  mkPriorityAction (ITEM row) (LOCATION row)
    (fround1 (DAYS_UNTIL_STOCKOUT row))
    (CLOSING_STOCK row)
    (rint (AVG_DAILY_USAGE row))
    (SUGGESTED_REORDER_QTY row).

(** The columns of [reorder_cols] (lines 183-184), in that order. *)
Record ReorderCols : Type := mkReorderCols {
  ro_LOCATION : string;
  ro_ITEM : string;
  ro_CLOSING_STOCK : Z;
  ro_LEAD_TIME_DAYS : Z;
  ro_DAYS_UNTIL_STOCKOUT : fval;
  ro_SUGGESTED_REORDER_QTY : Z;
  ro_STOCK_STATUS : string
}.

Definition reorder_cols (r : Row) : ReorderCols :=
  mkReorderCols (LOCATION r) (ITEM r) (CLOSING_STOCK r) (LEAD_TIME_DAYS r)
                (DAYS_UNTIL_STOCKOUT r) (SUGGESTED_REORDER_QTY r)
                (STOCK_STATUS r).

(** A CSV document as [to_csv(index=False)] lays it out: a header line and
    one line per row, each a list of cells.  How pandas prints a cell is
    not modelled; a cell carries the value printed. *)
Inductive cell : Type :=
| CText (s : string)
| CInt (z : Z)
| CFloat (v : fval).

Record Csv : Type := mkCsv {
  csv_header : list string;
  csv_lines : list (list cell)
}.

Definition reorder_header : list string :=
  ["LOCATION"; "ITEM"; "CLOSING_STOCK"; "LEAD_TIME_DAYS";
   "DAYS_UNTIL_STOCKOUT"; "SUGGESTED_REORDER_QTY"; "STOCK_STATUS"]%string.

Definition csv_line (r : ReorderCols) : list cell :=
  [CText (ro_LOCATION r); CText (ro_ITEM r); CInt (ro_CLOSING_STOCK r);
   CInt (ro_LEAD_TIME_DAYS r); CFloat (ro_DAYS_UNTIL_STOCKOUT r);
   CInt (ro_SUGGESTED_REORDER_QTY r); CText (ro_STOCK_STATUS r)].

Definition to_csv (rows : list ReorderCols) : Csv :=
  mkCsv reorder_header (map csv_line rows).

(** The sum of a list of integers. *)
Definition zsum (l : list Z) : Z := fold_right Z.add 0%Z l.

(** An integer reduced modulo 2^64 into the int64 range. *)
Definition int64_wrap (z : Z) : Z :=
  ((z + 9223372036854775808) mod 18446744073709551616
   - 9223372036854775808)%Z.

(** [Series.sum()] of an int64 column: numpy adds int64 values with
    two's-complement wrap-around, so the result is the sum modulo 2^64. *)
Definition series_sum (l : list Z) : Z := int64_wrap (zsum l).

Inductive AlertsPanel : Type :=
| AlertsTable (table : list (AlertCols * list string))
              (top_priority : list PriorityAction)
| AllHealthy (message : string).

Inductive ReorderPanel : Type :=
| ReorderTable (table : list ReorderCols)
               (items_to_reorder : nat) (total_units : Z) (critical : nat)
               (csv : Csv)
| NoReorders (message : string).

Record Dashboard : Type := mkDashboard {
  loaded_items : nat;              (* len(df), line 89 *)
  loaded_locations : nat;          (* df['LOCATION'].nunique(), line 89 *)
  critical_count : nat;
  warning_count : nat;
  healthy_count : nat;
  overstock_count : nat;
  heatmap_data : PivotTable;
  heatmap_styles : list (list string);
  alerts_panel : AlertsPanel;
  reorder_panel : ReorderPanel
}.

(** A run of the dashboard page either halts at [st.stop()] after an error
    message, or renders every section. *)
Inductive Run : Type :=
| Stopped (error : string)
| Rendered (d : Dashboard).

(** The texts of lines 86, 173 and 201. *)
Definition no_data_message : string :=
  "⚠️ No data found! Make sure stock_health_metrics table exists.".

Definition all_healthy_message : string :=
  "✅ No critical or warning items! All stock levels are healthy.".

Definition no_reorders_message : string := "✅ No reorders needed!".

Section Pipeline.

(** [DataFrame.sort_values(column)], default arguments. *)
Variable sort_values : (Row -> fval) -> DataFrame -> DataFrame.

(** Lines 143-144. *)
Definition alerts_df (df : DataFrame) : DataFrame :=
  sort_values DAYS_UNTIL_STOCKOUT
    (filter (fun r => isin ["CRITICAL"; "WARNING"]%string (STOCK_STATUS r)) df).

(** Line 161. *)
Definition top_critical (alerts : DataFrame) : DataFrame :=
  head 3 (filter (status_is "CRITICAL") alerts).

(** Lines 146-173. *)
Definition render_alerts (alerts : DataFrame) : AlertsPanel :=
  if (0 <? List.length alerts)%nat then
    AlertsTable
      (map (fun r => (display_cols r, highlight_status (display_cols r))) alerts)
      (map priority_action (top_critical alerts))
  else
    AllHealthy all_healthy_message.

(** Lines 179-180. *)
Definition reorder_df (df : DataFrame) : DataFrame :=
  sort_values DAYS_UNTIL_STOCKOUT
    (filter (fun r => (0 <? SUGGESTED_REORDER_QTY r)%Z) df).

(** Lines 182-201.  The download's file name carries the current date and
    is left out. *)
Definition render_reorder (reorder : DataFrame) : ReorderPanel :=
  if (0 <? List.length reorder)%nat then
    ReorderTable
      (map reorder_cols reorder)
      (List.length reorder)
      (series_sum (map SUGGESTED_REORDER_QTY reorder))
      (List.length (filter (status_is "CRITICAL") reorder))
      (to_csv (map reorder_cols reorder))
  else
    NoReorders no_reorders_message.

(** The dashboard page from the loaded frame on (lines 60-201). *)
Definition dashboard (loaded : DataFrame) : Run :=
  let df := derive loaded in
  match df with
  | [] =>
      Stopped no_data_message
  | _ :: _ =>
      let heat := pivot_table df in
      Rendered
        (mkDashboard
           (List.length df)
           (nunique (map LOCATION df))
           (List.length (filter (status_is "CRITICAL") df))
           (List.length (filter (status_is "WARNING") df))
           (List.length (filter (status_is "HEALTHY") df))
           (List.length (filter (status_is "OVERSTOCK") df))
           heat
           (applymap_color_days heat)
           (render_alerts (alerts_df df))
           (render_reorder (reorder_df df)))
  end.

End Pipeline.

(** Example frames. *)
Definition loaded_row (location item : string) (closing_stock : Z)
    (avg_daily_usage : Q) (suggested_reorder_qty : Z) : Row :=
  mkRow location item "2024-01-31" closing_stock 0 avg_daily_usage NaN ""
        suggested_reorder_qty 7 100.

(** A snapshot with one row per bucket and a duplicated (item, location). *)
Definition example_frame : DataFrame :=
  [ loaded_row "Clinic_A" "Gauze" 4 2 50;
    loaded_row "Clinic_A" "Gloves" 12 3 0;
    loaded_row "Clinic_B" "Gauze" 16 2 20;
    loaded_row "Clinic_B" "Syringes" 100 0 0;
    loaded_row "Clinic_B" "Gauze" 6 2 0 ].


(** ** Vocabulary of the statements *)

(** The loaded fields that lines 66-82 do not assign. *)
Definition unchanged_columns (loaded derived : Row) : Prop :=
  LOCATION derived = LOCATION loaded
  /\ ITEM derived = ITEM loaded
  /\ DATE derived = DATE loaded
  /\ CLOSING_STOCK derived = CLOSING_STOCK loaded
  /\ ISSUED derived = ISSUED loaded
  /\ LEAD_TIME_DAYS derived = LEAD_TIME_DAYS loaded
  /\ REORDER_LEVEL derived = REORDER_LEVEL loaded
  /\ SUGGESTED_REORDER_QTY derived = SUGGESTED_REORDER_QTY loaded.

(** Arithmetic mean of a non-empty list of rationals. *)
Definition qsum (l : list Q) : Q := fold_right Qplus 0 l.

Definition arithmetic_mean (l : list Q) : Q :=
  qsum l / inject_Z (Z.of_nat (List.length l)).

(** The horizons of the rows of a frame that carry a given (item, location). *)
Definition horizons_of (df : DataFrame) (item location : string) : list fval :=
  map DAYS_UNTIL_STOCKOUT (filter (in_group item location) df).

(** Urgency of a bucket, most urgent first. *)
Definition urgency_rank (status : string) : nat :=
  if String.eqb status "CRITICAL" then 0
  else if String.eqb status "WARNING" then 1
  else if String.eqb status "HEALTHY" then 2
  else 3.

(** The heatmap style that the legend of lines 130-136 pairs with a bucket. *)
Definition status_band (status : string) : string :=
  if String.eqb status "CRITICAL" then
    "background-color: #ff6b6b; color: white; font-weight: bold"%string
  else if String.eqb status "WARNING" then
    "background-color: #feca57; color: black; font-weight: bold"%string
  else if String.eqb status "HEALTHY" then
    "background-color: #48dbfb; color: black"%string
  else "background-color: #1dd1a1; color: white"%string.

(** * Properties *)

Local Open Scope string_scope.

(** ** Arithmetic of the derived columns *)

Lemma replace_zero_nonzero (u : Q) : Qeq_bool (replace 0 epsilon u) 0 = false.
Proof.
  unfold replace.
  destruct (Qeq_bool u 0) eqn:E; [reflexivity | exact E].
Qed.

Lemma replace_zero_cases (u : Q) :
  (u == 0 /\ replace 0 epsilon u = epsilon) \/ (~ u == 0 /\ replace 0 epsilon u = u).
Proof.
  unfold replace.
  destruct (Qeq_bool u 0) eqn:E.
  - left. split; [now apply Qeq_bool_iff | reflexivity].
  - right. split; [ | reflexivity].
    intro H. apply Qeq_bool_iff in H. congruence.
Qed.

Lemma col_div_nonzero (c : Z) (u : Q) :
  Qeq_bool u 0 = false -> col_div c u = Fin (inject_Z c / u).
Proof. intro H. unfold col_div. now rewrite H. Qed.

Lemma derive_row_days (r : Row) :
  DAYS_UNTIL_STOCKOUT (derive_row r) =
  Fin (round1 (inject_Z (CLOSING_STOCK r) / replace 0 epsilon (AVG_DAILY_USAGE r))).
Proof.
  cbn. now rewrite col_div_nonzero by apply replace_zero_nonzero.
Qed.

Lemma derive_map (df : DataFrame) : derive df = map derive_row df.
Proof. unfold derive. now rewrite !map_map. Qed.

Lemma in_derive (df : DataFrame) (r' : Row) :
  In r' (derive df) <-> exists r, In r df /\ r' = derive_row r.
Proof.
  rewrite derive_map, in_map_iff. split; intros [r [H1 H2]]; exists r; auto.
Qed.

Lemma rint_nonneg (q : Q) : 0 <= q -> (0 <= rint q)%Z.
Proof.
  intro H. unfold rint.
  assert (Hf : (0 <= Qfloor q)%Z).
  { change 0%Z with (Qfloor 0). now apply Qfloor_resp_le. }
  destruct (Qcompare _ _); [destruct (Z.even _) | | ]; lia.
Qed.

Lemma round1_nonneg (q : Q) : 0 <= q -> 0 <= round1 q.
Proof.
  intro H. unfold round1, Qle. cbn.
  assert (0 <= rint (q * 10))%Z by (apply rint_nonneg; lra).
  lia.
Qed.

Lemma Qdiv_nonneg (a b : Q) : 0 <= a -> 0 < b -> 0 <= a / b.
Proof.
  intros Ha Hb. apply Qle_shift_div_l; [exact Hb | lra].
Qed.

(** ** C1 *)

(** C1, as the code has it.  For every snapshot row with closing_stock >= 0
    and avg_daily_usage >= 0, days_until_stockout is the quotient of
    closing_stock by the usage column after [replace(0, 0.01)], rounded to
    one decimal: the divisor is 0.01 when the usage is exactly 0 and the
    usage itself otherwise.  It agrees with
    [round(closing_stock / max(avg_daily_usage, 0.01), 1)] whenever the
    usage is 0 or at least 0.01. *)
Theorem C1_days_until_stockout_formula (r : Row) :
  (0 <= CLOSING_STOCK r)%Z ->
  0 <= AVG_DAILY_USAGE r ->
  DAYS_UNTIL_STOCKOUT (derive_row r) =
    Fin (round1 (inject_Z (CLOSING_STOCK r) /
                 (if Qeq_bool (AVG_DAILY_USAGE r) 0 then epsilon
                  else AVG_DAILY_USAGE r)))
  /\ (AVG_DAILY_USAGE r == 0 \/ epsilon <= AVG_DAILY_USAGE r ->
      DAYS_UNTIL_STOCKOUT (derive_row r) =
        spec_days_until_stockout (CLOSING_STOCK r) (AVG_DAILY_USAGE r)).
Proof.
  intros _ _. rewrite derive_row_days. split.
  - reflexivity.
  - intros Hdom. unfold spec_days_until_stockout. do 3 f_equal.
    unfold Qmax, GenericMinMax.gmax.
    destruct (replace_zero_cases (AVG_DAILY_USAGE r)) as [[Hz ->] | [Hnz ->]];
      destruct (Qcompare_spec (AVG_DAILY_USAGE r) epsilon) as [He | Hl | Hg];
      try reflexivity.
    + rewrite Hz in He. discriminate He.
    + rewrite Hz in Hg. discriminate Hg.
    + destruct Hdom as [Hz | Hge]; [contradiction | ].
      exfalso. apply (Qlt_not_le _ _ Hl Hge).
Qed.

Lemma C1_days_until_stockout_formula_witness :
  let r := loaded_row "Clinic_A" "Gauze" 100 0 40 in
  DAYS_UNTIL_STOCKOUT (derive_row r) = Fin (round1 (100 / epsilon))
  /\ DAYS_UNTIL_STOCKOUT (derive_row r) = spec_days_until_stockout 100 0.
Proof.
  intro r.
  destruct (C1_days_until_stockout_formula r) as [H1 H2].
  - cbn. lia.
  - cbn. apply Qle_refl.
  - split; [exact H1 | apply H2; left; reflexivity].
Defined.

(** C1 as stated fails for a usage strictly between 0 and 0.01: with one
    unit in stock and a usage of 0.005 the code divides by 0.005 and
    reports 200.0 days, where the floored divisor 0.01 gives 100.0. *)
Lemma C1_counterexample :
  let r := loaded_row "Clinic_A" "Gauze" 1 (1 # 200) 40 in
  (0 <= CLOSING_STOCK r)%Z
  /\ 0 <= AVG_DAILY_USAGE r
  /\ AVG_DAILY_USAGE r < 1 # 100
  /\ feq (DAYS_UNTIL_STOCKOUT (derive_row r)) (Fin 200)
  /\ feq (spec_days_until_stockout (CLOSING_STOCK r) (AVG_DAILY_USAGE r)) (Fin 100)
  /\ ~ feq (DAYS_UNTIL_STOCKOUT (derive_row r))
           (spec_days_until_stockout (CLOSING_STOCK r) (AVG_DAILY_USAGE r)).
Proof.
  cbv zeta. repeat split; try (vm_compute; congruence).
Qed.

(** ** C2 *)

Lemma Qle_bool_false (x y : Q) : Qle_bool x y = false <-> y < x.
Proof.
  split; intro H.
  - apply Qnot_le_lt. intro Hle. apply Qle_bool_iff in Hle. congruence.
  - destruct (Qle_bool x y) eqn:E; [ | reflexivity].
    apply Qle_bool_iff in E. lra.
Qed.

Ltac bucket_cases d :=
  destruct (Qle_bool d 2) eqn:E2;
  destruct (Qle_bool d 5) eqn:E5;
  destruct (Qle_bool d 10) eqn:E10;
  repeat match goal with
         | H : Qle_bool _ _ = true |- _ => apply Qle_bool_iff in H
         | H : Qle_bool _ _ = false |- _ => apply Qle_bool_false in H
         end.

(** C2.  For every real days_until_stockout >= 0 the classifier returns
    exactly one of the four buckets: CRITICAL iff the value is <= 2,
    WARNING iff it is > 2 and <= 5, HEALTHY iff it is > 5 and <= 10,
    OVERSTOCK iff it is > 10; the boundary values 2.0, 5.0 and 10.0 map to
    CRITICAL, WARNING and HEALTHY, and 10.1 maps to OVERSTOCK. *)
Theorem C2_classify_stock_buckets (row : Row) (d : Q) :
  DAYS_UNTIL_STOCKOUT row = Fin d ->
  0 <= d ->
  In (classify_stock row) ["CRITICAL"; "WARNING"; "HEALTHY"; "OVERSTOCK"]
  /\ (classify_stock row = "CRITICAL" <-> d <= 2)
  /\ (classify_stock row = "WARNING" <-> 2 < d /\ d <= 5)
  /\ (classify_stock row = "HEALTHY" <-> 5 < d /\ d <= 10)
  /\ (classify_stock row = "OVERSTOCK" <-> 10 < d)
  /\ classify_stock (set_DAYS_UNTIL_STOCKOUT row (Fin 2)) = "CRITICAL"
  /\ classify_stock (set_DAYS_UNTIL_STOCKOUT row (Fin 5)) = "WARNING"
  /\ classify_stock (set_DAYS_UNTIL_STOCKOUT row (Fin 10)) = "HEALTHY"
  /\ classify_stock (set_DAYS_UNTIL_STOCKOUT row (Fin (101 # 10))) = "OVERSTOCK".
Proof.
  intros Hd _. unfold classify_stock at 1 2 3 4 5. rewrite Hd. cbn [fle_const].
  bucket_cases d;
    (split; [cbn; tauto | ]);
    repeat split; intros; try discriminate; try reflexivity; try lra;
    match goal with
    | H : _ /\ _ |- _ => destruct H; lra
    end.
Qed.

Lemma C2_classify_stock_buckets_witness :
  let row := set_DAYS_UNTIL_STOCKOUT (loaded_row "Clinic_A" "Gauze" 9 2 0) (Fin (45 # 10)) in
  classify_stock row = "WARNING".
Proof.
  intro row.
  destruct (C2_classify_stock_buckets row (45 # 10)) as (_ & _ & Hw & _).
  - reflexivity.
  - unfold Qle; cbn; lia.
  - apply Hw. split; unfold Qlt, Qle; cbn; lia.
Defined.

(** ** C6 *)

Section Binary64Facts.
Local Open Scope Z_scope.

(** *** Binary digits *)

Lemma digits2_pos_size (p : positive) : digits2_pos p = Pos.size p.
Proof. induction p; cbn; congruence. Qed.

Lemma Zdigits2_nonneg (m : Z) : 0 <= Zdigits2 m.
Proof. destruct m; cbn; lia. Qed.

Lemma Zdigits2_bounds (m : Z) :
  0 < m -> 2 ^ (Zdigits2 m - 1) <= m < 2 ^ Zdigits2 m.
Proof.
  destruct m as [ | p | p]; try lia. intros _. cbn [Zdigits2].
  rewrite digits2_pos_size.
  pose proof (Pos.size_gt p) as Hgt. pose proof (Pos.size_le p) as Hle.
  split.
  - assert (H : (2 ^ Pos.size p <= p~0)%positive) by exact Hle.
    apply Pos2Z.pos_le_pos in H. rewrite Pos2Z.inj_pow in H.
    replace (Z.pos (Pos.size p)) with (Z.succ (Z.pos (Pos.size p) - 1)) in H by lia.
    rewrite Z.pow_succ_r in H by lia. lia.
  - apply Pos2Z.pos_lt_pos in Hgt. now rewrite Pos2Z.inj_pow in Hgt.
Qed.

Lemma Zdigits2_le (m k : Z) : 0 <= k -> 0 <= m < 2 ^ k -> Zdigits2 m <= k.
Proof.
  intros Hk [H0 Hm].
  destruct (Z.eq_dec m 0) as [-> | Hn]; [cbn; lia | ].
  destruct (Zdigits2_bounds m) as [Hlo _]; [lia | ].
  destruct (Z_le_gt_dec (Zdigits2 m) k) as [ | Hgt]; [assumption | exfalso].
  assert (2 ^ k <= 2 ^ (Zdigits2 m - 1)) by (apply Z.pow_le_mono_r; lia).
  lia.
Qed.

Lemma Zdigits2_ge (m k : Z) : 2 ^ k <= m -> k + 1 <= Zdigits2 m.
Proof.
  intros Hm.
  assert (0 < 2 ^ k \/ k < 0) as [Hp | Hneg].
  { destruct (Z_lt_le_dec k 0); [now right | left; apply Z.pow_pos_nonneg; lia]. }
  - destruct (Zdigits2_bounds m) as [_ Hhi]; [lia | ].
    destruct (Z_le_gt_dec (k + 1) (Zdigits2 m)) as [ | Hgt]; [assumption | exfalso].
    assert (2 ^ Zdigits2 m <= 2 ^ k).
    { apply Z.pow_le_mono_r; [lia | ]. lia. }
    lia.
  - pose proof (Zdigits2_nonneg m). lia.
Qed.

Lemma Zdigits2_succ (m : Z) : 0 <= m -> Zdigits2 (m + 1) <= Zdigits2 m + 1.
Proof.
  intros Hm.
  destruct (Z.eq_dec m 0) as [-> | Hn]; [cbn; lia | ].
  destruct (Zdigits2_bounds m) as [_ Hhi]; [lia | ].
  pose proof (Zdigits2_nonneg m).
  apply Zdigits2_le; [lia | ].
  rewrite Z.pow_add_r, Z.pow_1_r by lia. lia.
Qed.

Lemma Zdigits2_mul (a b : Z) :
  0 < a -> 0 < b -> Zdigits2 (a * b) <= Zdigits2 a + Zdigits2 b.
Proof.
  intros Ha Hb.
  destruct (Zdigits2_bounds a Ha) as [_ Ha'].
  destruct (Zdigits2_bounds b Hb) as [_ Hb'].
  pose proof (Zdigits2_nonneg a). pose proof (Zdigits2_nonneg b).
  apply Zdigits2_le; [lia | ].
  rewrite Z.pow_add_r by lia. nia.
Qed.

Lemma Zdigits2_shiftl (m s : Z) :
  0 < m -> 0 <= s -> Zdigits2 (Z.shiftl m s) = Zdigits2 m + s.
Proof.
  intros Hm Hs. rewrite Z.shiftl_mul_pow2 by lia.
  destruct (Zdigits2_bounds m Hm) as [Hlo Hhi].
  assert (Hd : 1 <= Zdigits2 m).
  { pose proof (Zdigits2_ge m 0). cbn in H. lia. }
  assert (Hp : 0 < 2 ^ s) by (apply Z.pow_pos_nonneg; lia).
  apply Z.le_antisymm.
  - apply Zdigits2_le; [lia | ]. rewrite Z.pow_add_r by lia. nia.
  - pose proof (Zdigits2_ge (m * 2 ^ s) (Zdigits2 m - 1 + s)) as H.
    rewrite Z.pow_add_r in H by lia.
    assert (2 ^ (Zdigits2 m - 1) * 2 ^ s <= m * 2 ^ s) by nia. lia.
Qed.

Lemma Zdigits2_div (a b : Z) :
  0 <= a -> 0 < b -> Zdigits2 (a / b) <= Z.max 0 (Zdigits2 a - Zdigits2 b + 1).
Proof.
  intros Ha Hb.
  assert (Hq : 0 <= a / b) by (apply Z.div_pos; lia).
  destruct (Z.eq_dec (a / b) 0) as [-> | Hn]; [cbn; lia | ].
  assert (Hqa : b * (a / b) <= a) by (apply Z.mul_div_le; lia).
  assert (Ha0 : 0 < a) by nia.
  destruct (Zdigits2_bounds (a / b)) as [Hqlo _]; [lia | ].
  destruct (Zdigits2_bounds b Hb) as [Hblo _].
  destruct (Zdigits2_bounds a Ha0) as [_ Hahi].
  assert (Hdq : 1 <= Zdigits2 (a / b)).
  { pose proof (Zdigits2_ge (a / b) 0). cbn in H. lia. }
  assert (Hdb : 1 <= Zdigits2 b).
  { pose proof (Zdigits2_ge b 0). cbn in H. lia. }
  destruct (Z_le_gt_dec (Zdigits2 (a / b)) (Zdigits2 a - Zdigits2 b + 1))
    as [ | Hgt]; [lia | exfalso].
  assert (H1 : 2 ^ (Zdigits2 b - 1 + (Zdigits2 (a / b) - 1)) <= a).
  { rewrite Z.pow_add_r by lia.
    assert (0 < 2 ^ (Zdigits2 b - 1)) by (apply Z.pow_pos_nonneg; lia).
    assert (0 < 2 ^ (Zdigits2 (a / b) - 1)) by (apply Z.pow_pos_nonneg; lia).
    nia. }
  assert (H2 : 2 ^ Zdigits2 a <= 2 ^ (Zdigits2 b - 1 + (Zdigits2 (a / b) - 1))).
  { apply Z.pow_le_mono_r; lia. }
  lia.
Qed.

Lemma fexp64 (e : Z) : fexp 53 1024 e = Z.max (e - 53) (-1074).
Proof. reflexivity. Qed.

Lemma shr_1_digits (mrs : shr_record) :
  0 <= shr_m mrs ->
  0 <= shr_m (shr_1 mrs)
  /\ Zdigits2 (shr_m (shr_1 mrs)) = Z.max 0 (Zdigits2 (shr_m mrs) - 1).
Proof.
  destruct mrs as [m r s]. cbn [shr_m].
  destruct m as [ | [p | p | ] | p]; cbn [shr_1 shr_m Zdigits2 digits2_pos];
    intros H; lia.
Qed.

Lemma iter_shr_1_digits (p : positive) (mrs : shr_record) :
  0 <= shr_m mrs ->
  0 <= shr_m (iter_pos shr_1 p mrs)
  /\ Zdigits2 (shr_m (iter_pos shr_1 p mrs))
     = Z.max 0 (Zdigits2 (shr_m mrs) - Zpos p).
Proof.
  revert mrs. induction p as [p IH | p IH | ]; intros mrs H; cbn [iter_pos].
  - destruct (shr_1_digits mrs H) as [H1 E1].
    destruct (IH _ H1) as [H2 E2]. destruct (IH _ H2) as [H3 E3].
    split; [exact H3 | ]. rewrite E3, E2, E1. lia.
  - destruct (IH _ H) as [H2 E2]. destruct (IH _ H2) as [H3 E3].
    split; [exact H3 | ]. rewrite E3, E2. lia.
  - apply shr_1_digits, H.
Qed.

Lemma shr_record_of_loc_m (m : Z) (l : location) :
  shr_m (shr_record_of_loc m l) = m.
Proof. destruct l as [ | [ | | ]]; reflexivity. Qed.

Lemma shr_fexp_digits (m e : Z) (l : location) :
  0 <= m ->
  let '(mrs, e') := shr_fexp 53 1024 m e l in
  0 <= shr_m mrs
  /\ e' = Z.max e (fexp 53 1024 (Zdigits2 m + e))
  /\ Zdigits2 (shr_m mrs) + e' <= Z.max (Zdigits2 m + e) e'.
Proof.
  intros Hm. unfold shr_fexp, shr.
  pose proof (shr_record_of_loc_m m l) as Hrec.
  destruct (fexp 53 1024 (Zdigits2 m + e) - e) as [ | p | p] eqn:En.
  - rewrite Hrec. lia.
  - destruct (iter_shr_1_digits p (shr_record_of_loc m l)) as [H1 E1];
      [rewrite Hrec; exact Hm | ].
    rewrite Hrec in E1. rewrite E1. lia.
  - rewrite Hrec. lia.
Qed.

Lemma round_nearest_even_digits (m : Z) (l : location) :
  0 <= m ->
  0 <= round_nearest_even m l
  /\ Zdigits2 (round_nearest_even m l) <= Zdigits2 m + 1.
Proof.
  intros Hm. pose proof (Zdigits2_succ m Hm).
  unfold round_nearest_even.
  destruct l as [ | [ | | ]]; try destruct (Z.even m); lia.
Qed.

(** The result of rounding a non-negative mantissa carries the given sign and
    is never NaN. *)
Lemma binary_round_aux_signed (sx : bool) (mx ex : Z) (lx : location) :
  0 <= mx -> f64_signed sx (binary_round_aux 53 1024 sx mx ex lx).
Proof.
  intros Hm. unfold binary_round_aux.
  pose proof (shr_fexp_digits mx ex lx Hm) as H1.
  destruct (shr_fexp 53 1024 mx ex lx) as [mrs1 e1].
  destruct H1 as (H1 & _).
  destruct (round_nearest_even_digits (shr_m mrs1) (loc_of_shr_record mrs1) H1)
    as [H2 _].
  pose proof (shr_fexp_digits _ e1 loc_Exact H2) as H3.
  destruct (shr_fexp 53 1024 _ e1 loc_Exact) as [mrs2 e2].
  destruct H3 as (H3 & _).
  destruct (shr_m mrs2) as [ | p | p]; [reflexivity | | lia].
  destruct (e2 <=? 1024 - 53); reflexivity.
Qed.

(** With the exponent and the magnitude below the overflow threshold the
    result is finite. *)
Lemma binary_round_aux_within (B : Z) (sx : bool) (mx ex : Z) (lx : location) :
  0 <= mx -> -1074 <= B -> B <= 971 ->
  ex <= B -> Zdigits2 mx + ex <= B ->
  f64_within (B + 1) sx (binary_round_aux 53 1024 sx mx ex lx).
Proof.
  intros Hm HB0 HB He HD. unfold binary_round_aux.
  pose proof (shr_fexp_digits mx ex lx Hm) as H1.
  destruct (shr_fexp 53 1024 mx ex lx) as [mrs1 e1].
  destruct H1 as (H1 & E1 & D1).
  destruct (round_nearest_even_digits (shr_m mrs1) (loc_of_shr_record mrs1) H1)
    as [H2 D2].
  pose proof (shr_fexp_digits _ e1 loc_Exact H2) as H3.
  destruct (shr_fexp 53 1024 _ e1 loc_Exact) as [mrs2 e2].
  destruct H3 as (H3 & E2 & D3).
  rewrite fexp64 in E1, E2.
  destruct (shr_m mrs2) as [ | p | p] eqn:Em; [reflexivity | | lia].
  cbn [Zdigits2] in D3.
  destruct (Z.leb_spec e2 (1024 - 53)) as [Hle | Hgt]; cbn [f64_within];
    [split; [reflexivity | lia] | lia].
Qed.

Lemma f64_within_mono (B B' : Z) (s : bool) (x : float64) :
  B <= B' -> f64_within B s x -> f64_within B' s x.
Proof. destruct x; cbn; intuition lia. Qed.

Lemma f64_within_signed (B : Z) (s : bool) (x : float64) :
  f64_within B s x -> f64_signed s x.
Proof. destruct x; cbn; intuition. Qed.

Lemma digits2_pos_iter_xO (m d : positive) :
  Zpos (digits2_pos (Pos.iter xO m d)) = Zpos (digits2_pos m) + Zpos d.
Proof.
  induction d as [ | d IH] using Pos.peano_ind.
  - cbn. lia.
  - rewrite Pos.iter_succ. cbn [digits2_pos]. lia.
Qed.

(** A mantissa of at most k binary digits, taken at exponent 0, rounds to a
    finite number. *)
Lemma binary_round_within (k : Z) (s : bool) (m : positive) :
  0 <= k -> k <= 970 -> Zpos (digits2_pos m) <= k ->
  f64_within (k + 1) s (binary_round 53 1024 s m 0).
Proof.
  intros Hk0 Hk Hd.
  unfold binary_round, shl_align. rewrite fexp64.
  destruct (Z.max (Z.pos (digits2_pos m) + 0 - 53) (-1074) - 0)
    as [ | d | d] eqn:Ed.
  - apply binary_round_aux_within; cbn [Zdigits2]; lia.
  - apply binary_round_aux_within; cbn [Zdigits2]; lia.
  - apply binary_round_aux_within; cbn [Zdigits2 fst snd];
      rewrite ?digits2_pos_iter_xO; lia.
Qed.

Lemma binary_round_signed (s : bool) (m : positive) (e : Z) :
  f64_signed s (binary_round 53 1024 s m e).
Proof.
  unfold binary_round.
  destruct (shl_align m e _) as [mz ez].
  apply binary_round_aux_signed. lia.
Qed.

Lemma f64_of_int64_within (k z : Z) :
  0 <= k -> k <= 970 -> 0 <= z < 2 ^ k ->
  f64_within (k + 1) false (f64_of_int64 z).
Proof.
  intros Hk0 Hk [Hz0 Hz]. unfold f64_of_int64, binary_normalize.
  destruct z as [ | m | m]; [reflexivity | | lia].
  apply binary_round_within; try lia.
  apply (Zdigits2_le (Zpos m) k); lia.
Qed.

Lemma SFdiv_core_binary_bounds (m1 m2 : positive) (e1 e2 : Z) :
  let '(q, e', _) := SFdiv_core_binary 53 1024 (Zpos m1) e1 (Zpos m2) e2 in
  0 <= q
  /\ e' <= fexp 53 1024 (Zpos (digits2_pos m1) + e1 - (Zpos (digits2_pos m2) + e2))
  /\ Zdigits2 q + e'
     <= Z.max e' (Zpos (digits2_pos m1) + e1 - (Zpos (digits2_pos m2) + e2) + 1).
Proof.
  unfold SFdiv_core_binary. cbn [Zdigits2].
  set (d1 := Zpos (digits2_pos m1)). set (d2 := Zpos (digits2_pos m2)).
  set (e' := Z.min (fexp 53 1024 (d1 + e1 - (d2 + e2))) (e1 - e2)).
  set (m' := match e1 - e2 - e' with
             | 0 => Zpos m1
             | Zpos _ => Z.shiftl (Zpos m1) (e1 - e2 - e')
             | Zneg _ => 0
             end).
  assert (Hm' : 0 <= m' /\ Zdigits2 m' <= d1 + (e1 - e2 - e')).
  { subst m'. destruct (e1 - e2 - e') as [ | p | p] eqn:Es.
    - cbn [Zdigits2]. fold d1. lia.
    - rewrite Zdigits2_shiftl by lia. cbn [Zdigits2]. fold d1.
      split; [apply Z.shiftl_nonneg | ]; lia.
    - subst e'. lia. }
  destruct Hm' as [Hm0 Hmd].
  assert (Hq : fst (Z.div_eucl m' (Zpos m2)) = m' / Zpos m2) by reflexivity.
  destruct (Z.div_eucl m' (Zpos m2)) as [q r]. cbn [fst] in Hq. subst q.
  split; [apply Z.div_pos; lia | ].
  split; [subst e'; lia | ].
  pose proof (Zdigits2_div m' (Zpos m2) Hm0 ltac:(lia)) as Hd.
  cbn [Zdigits2] in Hd. fold d2 in Hd. lia.
Qed.

(** Division by a positive finite number or by +inf never gives NaN or a
    negative value. *)
Lemma f64_div_signed (B : Z) (x y : float64) :
  f64_within B false x ->
  match y with
  | S754_finite false _ _ | S754_infinity false => True
  | _ => False
  end ->
  f64_signed false (f64_div x y).
Proof.
  intros Hx Hy.
  destruct x as [sx | sx | | sx mx ex]; cbn [f64_within] in Hx; try contradiction;
    destruct y as [sy | [ | ] | | [ | ] my ey]; try contradiction;
    try (subst sx; reflexivity); try (destruct Hx as [-> _]; reflexivity).
  destruct Hx as [-> _]. unfold f64_div, SFdiv.
  pose proof (SFdiv_core_binary_bounds mx my ex ey) as Hb.
  destruct (SFdiv_core_binary 53 1024 (Zpos mx) ex (Zpos my) ey) as [[q e'] l].
  apply binary_round_aux_signed. tauto.
Qed.

(** Division by a positive finite number that is not too small stays finite. *)
Lemma f64_div_within (Bx L B : Z) (x : float64) (m2 : positive) (e2 : Z) :
  f64_within Bx false x ->
  L <= Zpos (digits2_pos m2) + e2 ->
  -1074 <= B -> B <= 971 -> Bx - L + 1 <= B ->
  f64_within (B + 1) false (f64_div x (S754_finite false m2 e2)).
Proof.
  intros Hx HL HB0 HB HBx.
  destruct x as [sx | sx | | sx mx ex]; cbn [f64_within] in Hx; try contradiction.
  - subst sx. reflexivity.
  - destruct Hx as (-> & He & Hd). unfold f64_div, SFdiv.
    pose proof (SFdiv_core_binary_bounds mx m2 ex e2) as Hb.
    destruct (SFdiv_core_binary 53 1024 (Zpos mx) ex (Zpos m2) e2) as [[q e'] l].
    destruct Hb as (Hq & He' & Hd'). rewrite fexp64 in He'.
    apply binary_round_aux_within; lia.
Qed.

Lemma f64_mul_signed (x : float64) (my : positive) (ey : Z) :
  f64_signed false x -> f64_signed false (f64_mul x (S754_finite false my ey)).
Proof.
  destruct x as [sx | sx | | sx mx ex]; cbn; try contradiction;
    try (intros ->; reflexivity).
  intros ->. apply binary_round_aux_signed. lia.
Qed.

Lemma f64_mul_within (Bx U B : Z) (x : float64) (my : positive) (ey : Z) :
  f64_within Bx false x ->
  ey <= 0 -> Zpos (digits2_pos my) + ey <= U -> 0 <= U ->
  -1074 <= B -> B <= 971 -> Bx + U <= B ->
  f64_within (B + 1) false (f64_mul x (S754_finite false my ey)).
Proof.
  intros Hx Hey HU HU0 HB0 HB HBx.
  destruct x as [sx | sx | | sx mx ex]; cbn [f64_within] in Hx; try contradiction.
  - subst sx. reflexivity.
  - destruct Hx as (-> & He & Hd). unfold f64_mul, SFmul. cbn [xorb].
    pose proof (Zdigits2_mul (Zpos mx) (Zpos my) ltac:(lia) ltac:(lia)) as Hm.
    change (Zpos mx * Zpos my) with (Zpos (mx * my)) in Hm.
    cbn [Zdigits2] in Hm.
    apply binary_round_aux_within; cbn [Zdigits2]; lia.
Qed.

Lemma f64_rint_digits (m p : positive) :
  let mrs := iter_pos shr_1 p (Build_shr_record (Zpos m) false false) in
  let k := round_nearest_even (shr_m mrs) (loc_of_shr_record mrs) in
  0 <= k /\ Zdigits2 k <= Z.max 0 (Zpos (digits2_pos m) - Zpos p) + 1.
Proof.
  intros mrs k.
  destruct (iter_shr_1_digits p (Build_shr_record (Zpos m) false false))
    as [H1 E1]; [cbn; lia | ].
  cbn [shr_m Zdigits2] in E1. fold mrs in H1, E1.
  destruct (round_nearest_even_digits (shr_m mrs) (loc_of_shr_record mrs) H1)
    as [H2 D2].
  fold k in H2, D2. lia.
Qed.

Lemma f64_rint_signed (x : float64) :
  f64_signed false x -> f64_signed false (f64_rint x).
Proof.
  destruct x as [sx | sx | | sx m [ | p | p]]; cbn [f64_rint f64_signed];
    try tauto.
  intros ->. destruct (f64_rint_digits m p) as [Hk _].
  cbn zeta in Hk. cbn [cond_Zopp].
  destruct (round_nearest_even _ _) as [ | k | k]; [reflexivity | | lia].
  apply binary_round_signed.
Qed.

Lemma f64_rint_within (Bx : Z) (x : float64) :
  0 <= Bx -> Bx <= 968 ->
  f64_within Bx false x -> f64_within (Bx + 2) false (f64_rint x).
Proof.
  intros HB0 HB.
  destruct x as [sx | sx | | sx m [ | p | p]]; cbn [f64_rint f64_within];
    try tauto; try (intros (-> & He & Hd); repeat split; lia).
  intros (-> & He & Hd). destruct (f64_rint_digits m p) as [Hk Hkd].
  cbn zeta in Hk, Hkd. cbn [cond_Zopp].
  destruct (round_nearest_even _ _) as [ | k | k]; [reflexivity | | lia].
  cbn [Zdigits2] in Hkd. cbn [binary_normalize].
  replace (Bx + 2) with (Bx + 1 + 1) by lia.
  apply binary_round_within; lia.
Qed.

Lemma f64_of_int64_signed (z : Z) :
  0 <= z -> f64_signed false (f64_of_int64 z).
Proof.
  intros Hz. unfold f64_of_int64, binary_normalize.
  destruct z as [ | m | m]; [reflexivity | | lia].
  unfold binary_round.
  destruct (shl_align m 0 _) as [mz ez].
  apply binary_round_aux_signed. lia.
Qed.

Lemma f64_ten_eq : f64_ten = S754_finite false 5629499534213120 (-49).
Proof. vm_compute. reflexivity. Qed.

Lemma f64_epsilon_eq : f64_epsilon = S754_finite false 5764607523034235 (-59).
Proof. vm_compute. reflexivity. Qed.

Lemma f64_round1_signed (x : float64) :
  f64_signed false x -> f64_signed false (f64_round1 x).
Proof.
  intros Hx. unfold f64_round1. rewrite f64_ten_eq.
  pose proof (f64_rint_signed _ (f64_mul_signed x 5629499534213120 (-49) Hx))
    as Hr.
  destruct (f64_rint _) as [s | s | | s m e]; cbn [f64_signed] in Hr;
    try contradiction; subst s; try reflexivity.
  apply (f64_div_signed (Z.max e (Zpos (digits2_pos m) + e))); [ | exact I].
  cbn [f64_within]. repeat split; lia.
Qed.

Lemma f64_round1_within (Bx : Z) (x : float64) :
  0 <= Bx -> Bx <= 900 ->
  f64_within Bx false x -> f64_within (Bx + 7) false (f64_round1 x).
Proof.
  intros HB0 HB Hx. unfold f64_round1. rewrite f64_ten_eq.
  assert (Hm : f64_within (Bx + 5) false
                 (f64_mul x (S754_finite false 5629499534213120 (-49)))).
  { replace (Bx + 5) with (Bx + 4 + 1) by lia.
    apply (f64_mul_within Bx 4); try lia; [exact Hx | vm_compute; discriminate]. }
  apply f64_rint_within in Hm; try lia.
  replace (Bx + 7) with (Bx + 6 + 1) by lia.
  apply (f64_div_within (Bx + 5 + 2) 4); try lia; [exact Hm | ].
  vm_compute. discriminate.
Qed.

Lemma f64_signed_nonneg (x : float64) :
  f64_signed false x -> SFleb f64_zero x = true.
Proof. destruct x as [s | s | | s m e]; cbn; try tauto; intros ->; reflexivity. Qed.

Lemma f64_within_finite (B : Z) (s : bool) (x : float64) :
  f64_within B s x -> f64_is_finite x = true.
Proof. destruct x; cbn; tauto. Qed.

Lemma usage_cases (usage : float64) :
  SFleb f64_zero usage = true ->
  (SFeqb usage f64_zero = true /\ fix_usage64 usage = f64_epsilon)
  \/ (SFeqb usage f64_zero = false /\ fix_usage64 usage = usage
      /\ (usage = S754_infinity false
          \/ exists m e, usage = S754_finite false m e)).
Proof.
  destruct usage as [s | [ | ] | | [ | ] m e]; cbn; try discriminate; intros _.
  - left. split; reflexivity.
  - right. repeat split. now left.
  - right. repeat split. right. now exists m, e.
Qed.

(** On the example snapshot the two readings of lines 66-69 give the same
    horizons. *)
Lemma calc_days64_example_frame :
  Forall (fun r =>
            feq (f64_value (calc_days64 (CLOSING_STOCK r)
                                        (f64_of_Q (AVG_DAILY_USAGE r))))
                (DAYS_UNTIL_STOCKOUT (derive_row r)))
         example_frame.
Proof. repeat constructor; vm_compute; reflexivity. Qed.

(** C6, as the code has it, on doubles.  For a stock in the int64 range
    that is not negative and a usage that is not negative: the divisor of
    line 69 is never zero (a usage of 0 has become 0.01), and
    days_until_stockout is never NaN and never negative.  It is finite when
    the loaded usage is 0 or at least 0.01; a smaller positive usage is
    not floored by line 66, and its quotient may overflow to inf. *)
Theorem C6_days_never_negative (closing : Z) (usage : float64) :
  0 <= closing < 2 ^ 63 ->
  SFleb f64_zero usage = true ->
  SFeqb (fix_usage64 usage) f64_zero = false
  /\ (SFeqb usage f64_zero = true -> fix_usage64 usage = f64_epsilon)
  /\ SFleb f64_zero (calc_days64 closing usage) = true
  /\ (SFeqb usage f64_zero = true \/ SFleb f64_epsilon usage = true ->
      f64_is_finite (calc_days64 closing usage) = true).
Proof.
  intros Hc Hu.
  assert (Hx : f64_within 64 false (f64_of_int64 closing)).
  { apply (f64_of_int64_within 63); lia. }
  unfold calc_days64.
  destruct (usage_cases usage Hu) as [[Hz Hfix] | (Hnz & Hfix & Hshape)];
    rewrite Hfix.
  - rewrite f64_epsilon_eq.
    assert (Hq : f64_within 72 false
                   (f64_div (f64_of_int64 closing)
                      (S754_finite false 5764607523034235 (-59)))).
    { apply (f64_div_within 64 (-6) 71); try lia; [exact Hx | ].
      vm_compute. discriminate. }
    apply f64_round1_within in Hq; try lia.
    repeat split; try reflexivity.
    + apply f64_signed_nonneg. eapply f64_within_signed, Hq.
    + intros _. eapply f64_within_finite, Hq.
  - split; [exact Hnz | ].
    split; [congruence | ].
    split.
    + apply f64_signed_nonneg, f64_round1_signed.
      apply (f64_div_signed 64); [exact Hx | ].
      destruct Hshape as [-> | (m & e & ->)]; exact I.
    + intros [Hz | Hge]; [congruence | ].
      destruct Hshape as [-> | (m & e & ->)].
      * destruct (f64_of_int64 closing) as [s | s | | s mx ex];
          cbn [f64_within] in Hx; try contradiction; reflexivity.
      * assert (He : -59 <= e).
        { rewrite f64_epsilon_eq in Hge. unfold SFleb, SFcompare in Hge.
          destruct (Z.compare_spec (-59) e); [lia | lia | discriminate]. }
        assert (Hq : f64_within 125 false
                       (f64_div (f64_of_int64 closing) (S754_finite false m e))).
        { apply (f64_div_within 64 (-58) 124); [exact Hx | lia ..]. }
        apply f64_round1_within in Hq; try lia.
        eapply f64_within_finite, Hq.
Qed.

Lemma C6_days_never_negative_witness :
  SFleb f64_zero (calc_days64 100 f64_zero) = true
  /\ f64_is_finite (calc_days64 100 f64_zero) = true.
Proof.
  destruct (C6_days_never_negative 100 f64_zero) as (_ & _ & Hn & Hf).
  - split; [lia | reflexivity].
  - reflexivity.
  - split; [exact Hn | apply Hf; left; reflexivity].
Defined.

(** C6 as stated fails in "finite".  A stock of 1000000 units with a usage
    of 1e-305 per day (the double 7906338019816821 * 2^-1066) is inside the
    documented domain; line 66 leaves that usage as it is, and the quotient
    of line 69 exceeds every double: days_until_stockout is inf. *)
Lemma C6_counterexample :
  let closing := 1000000 in
  let usage := S754_finite false 7906338019816821 (-1066) in
  0 <= closing < 2 ^ 63
  /\ valid_binary 53 1024 usage = true
  /\ SFleb f64_zero usage = true
  /\ fix_usage64 usage = usage
  /\ calc_days64 closing usage = S754_infinity false
  /\ f64_is_finite (calc_days64 closing usage) = false.
Proof.
  cbv zeta. split; [split; [lia | reflexivity] | ].
  vm_compute. repeat split.
Qed.
End Binary64Facts.

(** ** Sorting *)

Lemma key_leb_total (a b : fval) : key_leb a b = false -> key_leb b a = true.
Proof.
  destruct a as [x | | | ], b as [y | | | ]; cbn; try congruence.
  intro H. apply Qle_bool_false in H. apply Qle_bool_iff. lra.
Qed.

Lemma key_le_trans (a b c : fval) : key_le a b -> key_le b c -> key_le a c.
Proof.
  unfold key_le.
  destruct a as [x | | | ], b as [y | | | ], c as [z | | | ];
    cbn; intros H1 H2; try congruence.
  apply Qle_bool_iff in H1, H2. apply Qle_bool_iff. lra.
Qed.

Section InsertionSortFacts.
Context {A : Type} (cmp : A -> A -> bool) (R : A -> A -> Prop).
Hypothesis R_trans : forall a b c, R a b -> R b c -> R a c.
Hypothesis cmp_true : forall a b, cmp a b = true -> R a b.
Hypothesis cmp_false : forall a b, cmp a b = false -> R b a.

Lemma insert_by_perm (x : A) (l : list A) :
  Permutation (x :: l) (insert_by cmp x l).
Proof.
  induction l as [ | y l IH]; cbn.
  - apply Permutation_refl.
  - destruct (cmp x y).
    + apply Permutation_refl.
    + rewrite perm_swap. now apply perm_skip.
Qed.

Lemma sort_by_perm (l : list A) : Permutation l (sort_by cmp l).
Proof.
  induction l as [ | x l IH]; cbn.
  - constructor.
  - rewrite <- insert_by_perm. now apply perm_skip.
Qed.

Lemma insert_by_sorted (x : A) (l : list A) :
  StronglySorted R l -> StronglySorted R (insert_by cmp x l).
Proof.
  induction 1 as [ | y l Hl IH Hy]; cbn.
  - repeat constructor.
  - destruct (cmp x y) eqn:E.
    + constructor; [now constructor | ].
      constructor; [now apply cmp_true | ].
      eapply Forall_impl; [ | exact Hy].
      intros z Hz. eapply R_trans; [apply cmp_true; exact E | exact Hz].
    + constructor; [exact IH | ].
      rewrite <- insert_by_perm.
      constructor; [now apply cmp_false | exact Hy].
Qed.

Lemma sort_by_sorted (l : list A) : StronglySorted R (sort_by cmp l).
Proof.
  induction l as [ | x l IH]; cbn.
  - constructor.
  - now apply insert_by_sorted.
Qed.
End InsertionSortFacts.

Lemma stable_sort_values_contract : sort_values_contract stable_sort_values.
Proof.
  intros key df. split.
  - apply sort_by_perm.
  - apply sort_by_sorted.
    + intros a b c. apply key_le_trans.
    + intros a b H. exact H.
    + intros a b H. now apply key_leb_total.
Qed.

(** The insertion sort on [key_leb] keeps ties in input order: asking
    pandas for [kind='stable'] would make the order of equal horizons that
    of the snapshot. *)
Lemma insert_by_keeps_ties (key : Row -> fval) (v : fval) (x : Row) (l : DataFrame) :
  filter (same_key key v) (insert_by (fun a b => key_leb (key a) (key b)) x l) =
  filter (same_key key v) (x :: l).
Proof.
  induction l as [ | y l IH]; [reflexivity | ].
  cbn [insert_by]. destruct (key_leb (key x) (key y)) eqn:E; [reflexivity | ].
  cbn [filter] in *. rewrite IH.
  destruct (same_key key v x) eqn:Ex, (same_key key v y) eqn:Ey;
    try reflexivity.
  exfalso. unfold same_key in Ex, Ey.
  apply andb_true_iff in Ex as [Hx _]. apply andb_true_iff in Ey as [_ Hy].
  pose proof (key_le_trans _ _ _ Hx Hy) as Hxy. unfold key_le in Hxy.
  congruence.
Qed.

Lemma stable_sort_values_keeps_ties (key : Row -> fval) (df : DataFrame) :
  ties_keep_order key df (stable_sort_values key df).
Proof.
  intro v. unfold stable_sort_values.
  induction df as [ | x df IH]; [reflexivity | ].
  cbn [sort_by fold_right]. fold (sort_by (fun a b => key_leb (key a) (key b)) df).
  rewrite insert_by_keeps_ties. cbn [filter]. now rewrite IH.
Qed.







(** ** Permutations and roll-ups *)

Lemma int64_wrap_small (z : Z) :
  (- 2 ^ 63 <= z < 2 ^ 63)%Z -> int64_wrap z = z.
Proof.
  intro H. unfold int64_wrap.
  rewrite Z.mod_small; lia.
Qed.

Lemma zsum_nonneg (l : list Z) :
  Forall (fun z => (0 <= z)%Z) l -> (0 <= zsum l)%Z.
Proof.
  unfold zsum. induction 1 as [ | z l Hz _ IH]; cbn [fold_right]; lia.
Qed.

Lemma zsum_perm (l l' : list Z) : Permutation l l' -> zsum l = zsum l'.
Proof. unfold zsum. induction 1; cbn in *; lia. Qed.

Lemma filter_perm {A : Type} (f : A -> bool) (l l' : list A) :
  Permutation l l' -> Permutation (filter f l) (filter f l').
Proof.
  induction 1 as [ | x l l' _ IH | x y l | l l' l'' _ IH1 _ IH2]; cbn.
  - constructor.
  - destruct (f x); [now apply perm_skip | exact IH].
  - destruct (f x), (f y); try apply Permutation_refl. apply perm_swap.
  - now transitivity (filter f l').
Qed.

Lemma filter_map_length {A B : Type} (f : B -> bool) (g : A -> B) (l : list A) :
  List.length (filter f (map g l)) = List.length (filter (fun x => f (g x)) l).
Proof.
  induction l as [ | x l IH]; cbn; [reflexivity | ].
  destruct (f (g x)); cbn; now rewrite IH.
Qed.

Lemma head_in {A : Type} (n : nat) (l : list A) (x : A) :
  In x (firstn n l) -> In x l.
Proof.
  intro H. rewrite <- (firstn_skipn n l). apply in_or_app. now left.
Qed.

Lemma isin_alert (s : string) :
  isin ["CRITICAL"; "WARNING"] s = true <-> s = "CRITICAL" \/ s = "WARNING".
Proof.
  unfold isin. cbn. rewrite !orb_true_iff, !String.eqb_eq.
  intuition discriminate.
Qed.

(** ** The rendered page *)

Section DashboardFacts.

Variable sort_values : (Row -> fval) -> DataFrame -> DataFrame.
Hypothesis sort_values_ok : sort_values_contract sort_values.

Lemma alerts_df_perm (df : DataFrame) :
  Permutation
    (filter (fun r => isin ["CRITICAL"; "WARNING"] (STOCK_STATUS r)) df)
    (alerts_df sort_values df).
Proof. apply sort_values_ok. Qed.

Lemma alerts_df_ascending (df : DataFrame) :
  ascending DAYS_UNTIL_STOCKOUT (alerts_df sort_values df).
Proof. apply sort_values_ok. Qed.

Lemma alerts_df_in (df : DataFrame) (r : Row) :
  In r (alerts_df sort_values df) <->
  In r df /\ (STOCK_STATUS r = "CRITICAL" \/ STOCK_STATUS r = "WARNING").
Proof.
  rewrite <- isin_alert, <- (filter_In (fun r => isin _ (STOCK_STATUS r))).
  split; apply Permutation_in;
    [symmetry | ]; apply alerts_df_perm.
Qed.

Lemma reorder_df_perm (df : DataFrame) :
  Permutation (filter (fun r => (0 <? SUGGESTED_REORDER_QTY r)%Z) df)
              (reorder_df sort_values df).
Proof. apply sort_values_ok. Qed.

Lemma reorder_df_ascending (df : DataFrame) :
  ascending DAYS_UNTIL_STOCKOUT (reorder_df sort_values df).
Proof. apply sort_values_ok. Qed.

Lemma reorder_df_in (df : DataFrame) (r : Row) :
  In r (reorder_df sort_values df) <->
  In r df /\ (0 < SUGGESTED_REORDER_QTY r)%Z.
Proof.
  rewrite <- Z.ltb_lt,
    <- (filter_In (fun r => (0 <? SUGGESTED_REORDER_QTY r)%Z)).
  split; apply Permutation_in;
    [symmetry | ]; apply reorder_df_perm.
Qed.

Lemma dashboard_rendered (loaded : DataFrame) (d : Dashboard) :
  dashboard sort_values loaded = Rendered d ->
  loaded <> []
  /\ heatmap_data d = pivot_table (derive loaded)
  /\ alerts_panel d = render_alerts (alerts_df sort_values (derive loaded))
  /\ reorder_panel d = render_reorder (reorder_df sort_values (derive loaded)).
Proof.
  unfold dashboard. destruct loaded as [ | r loaded]; cbn.
  - discriminate.
  - intro H. injection H as <-. cbn. repeat split. discriminate.
Qed.

Lemma render_alerts_table (alerts : DataFrame) table top :
  render_alerts alerts = AlertsTable table top ->
  alerts <> []
  /\ table = map (fun r => (display_cols r, highlight_status (display_cols r))) alerts
  /\ top = map priority_action (top_critical alerts).
Proof.
  unfold render_alerts. destruct alerts as [ | r alerts]; cbn.
  - discriminate.
  - intro H. injection H as <- <-. repeat split. discriminate.
Qed.

Lemma render_reorder_table (reorder : DataFrame) table n total crit csv :
  render_reorder reorder = ReorderTable table n total crit csv ->
  reorder <> []
  /\ table = map reorder_cols reorder
  /\ n = List.length reorder
  /\ total = series_sum (map SUGGESTED_REORDER_QTY reorder)
  /\ crit = List.length (filter (status_is "CRITICAL") reorder)
  /\ csv = to_csv (map reorder_cols reorder).
Proof.
  unfold render_reorder. destruct reorder as [ | r reorder]; cbn [List.length Nat.ltb Nat.leb].
  - discriminate.
  - intro H. injection H as <- <- <- <- <-. repeat split. discriminate.
Qed.

Lemma top_critical_in (alerts : DataFrame) (r : Row) :
  In r (top_critical alerts) -> In r alerts.
Proof.
  unfold top_critical, head. intro H.
  apply head_in in H. now apply filter_In in H.
Qed.

(** C3, as the code has it.  Line 66 writes the replaced usage back into
    the AVG_DAILY_USAGE column, so the downstream outputs report the
    replaced value: the alert table shows, for the loaded row a line
    comes from, 0.01 when the loaded usage is 0 and the loaded usage
    otherwise; the top-priority narrative prints that same column
    rounded to no decimals, which reads 0 for a loaded usage of 0. *)
Theorem C3_usage_column_overwritten (loaded : DataFrame) (d : Dashboard)
    (table : list (AlertCols * list string)) (top : list PriorityAction) :
  dashboard sort_values loaded = Rendered d ->
  alerts_panel d = AlertsTable table top ->
  (forall cols css, In (cols, css) table ->
     exists r, In r loaded
       /\ cols = display_cols (derive_row r)
       /\ al_AVG_DAILY_USAGE cols =
            (if Qeq_bool (AVG_DAILY_USAGE r) 0 then 1 # 100
             else AVG_DAILY_USAGE r))
  /\ (forall pa, In pa top ->
     exists r, In r loaded
       /\ pa = priority_action (derive_row r)
       /\ pa_daily_usage pa =
            rint (if Qeq_bool (AVG_DAILY_USAGE r) 0 then 1 # 100
                  else AVG_DAILY_USAGE r)
       /\ (AVG_DAILY_USAGE r == 0 -> pa_daily_usage pa = 0%Z)).
Proof.
  intros Hrun Hpanel.
  apply dashboard_rendered in Hrun as (_ & _ & Ha & _).
  rewrite Ha in Hpanel.
  apply render_alerts_table in Hpanel as (_ & -> & ->).
  split.
  - intros cols css Hin.
    apply in_map_iff in Hin as (r' & Heq & Hin).
    injection Heq as <- _.
    apply alerts_df_in in Hin as [Hin _].
    apply in_derive in Hin as (r & Hin & ->).
    exists r. repeat split; auto.
  - intros pa Hin.
    apply in_map_iff in Hin as (r' & <- & Hin).
    apply top_critical_in, alerts_df_in in Hin as [Hin _].
    apply in_derive in Hin as (r & Hin & ->).
    exists r. repeat split; auto.
    intro Hz. apply Qeq_bool_iff in Hz. cbn. unfold replace. now rewrite Hz.
Qed.

(** C4, as the code has it.  A snapshot of zero rows stops the run at
    the guard of lines 85-87, after the "No data found" error and before
    any section is rendered; a run renders exactly when the snapshot has
    a row.  On a rendered page, a frame with no CRITICAL or WARNING row
    yields the "all healthy" state and a frame with no positive
    suggested quantity yields the "no reorders needed" state. *)
Theorem C4_empty_snapshot_stops :
  dashboard sort_values [] = Stopped no_data_message
  /\ (forall loaded,
        (exists d, dashboard sort_values loaded = Rendered d) <-> loaded <> [])
  /\ (forall loaded d,
        dashboard sort_values loaded = Rendered d ->
        ((forall r, In r (derive loaded) ->
            STOCK_STATUS r <> "CRITICAL" /\ STOCK_STATUS r <> "WARNING") ->
         alerts_panel d = AllHealthy all_healthy_message)
        /\ ((forall r, In r loaded -> (SUGGESTED_REORDER_QTY r <= 0)%Z) ->
            reorder_panel d = NoReorders no_reorders_message)).
Proof.
  split; [reflexivity | split].
  - intros loaded. split.
    + intros [d Hd]. now apply dashboard_rendered in Hd.
    + intro Hne. destruct loaded as [ | r loaded]; [congruence | ].
      cbn. eexists. reflexivity.
  - intros loaded d Hrun.
    apply dashboard_rendered in Hrun as (_ & _ & -> & ->).
    split; intro Hnone.
    + destruct (alerts_df sort_values (derive loaded)) as [ | r l] eqn:E;
        [reflexivity | exfalso].
      assert (Hin : In r (alerts_df sort_values (derive loaded)))
        by (rewrite E; now left).
      apply alerts_df_in in Hin as [Hin Hst].
      destruct (Hnone r Hin). tauto.
    + destruct (reorder_df sort_values (derive loaded)) as [ | r l] eqn:E;
        [reflexivity | exfalso].
      assert (Hin : In r (reorder_df sort_values (derive loaded)))
        by (rewrite E; now left).
      apply reorder_df_in in Hin as [Hin Hq].
      apply in_derive in Hin as (r0 & Hin & ->).
      specialize (Hnone r0 Hin). cbn in Hq. lia.
Qed.


(** C7, as the code has it.  The reorder list holds exactly the rows
    with suggested_reorder_qty > 0, in ascending order of
    days_until_stockout, and it is shown whenever there is such a row.
    The roll-ups shown with it are the number of selected rows, the
    int64 sum of their suggested_reorder_qty, and the number of them whose
    stock_status is CRITICAL, whether counted over the selection in the
    frame or over the lines of the table.  The int64 sum is the sum of
    the quantities when that sum is below 2^63, and the sum reduced modulo
    2^64 otherwise. *)
Theorem C7_reorder_list_rollups (loaded : DataFrame) (d : Dashboard) :
  dashboard sort_values loaded = Rendered d ->
  let selected :=
    filter (fun r => (0 <? SUGGESTED_REORDER_QTY r)%Z) (derive loaded) in
  (selected <> [] ->
     exists table n total crit csv,
       reorder_panel d = ReorderTable table n total crit csv)
  /\ forall table n total crit csv,
       reorder_panel d = ReorderTable table n total crit csv ->
       exists rows : DataFrame,
         table = map reorder_cols rows
         /\ Permutation selected rows
         /\ (forall r, In r rows <->
                       In r (derive loaded) /\ (0 < SUGGESTED_REORDER_QTY r)%Z)
         /\ ascending DAYS_UNTIL_STOCKOUT rows
         /\ n = List.length selected
         /\ n = List.length table
         /\ total = int64_wrap (zsum (map SUGGESTED_REORDER_QTY selected))
         /\ total = int64_wrap (zsum (map ro_SUGGESTED_REORDER_QTY table))
         /\ ((zsum (map SUGGESTED_REORDER_QTY selected) < 2 ^ 63)%Z ->
             total = zsum (map SUGGESTED_REORDER_QTY selected)
             /\ total = zsum (map ro_SUGGESTED_REORDER_QTY table))
         /\ crit = List.length (filter (status_is "CRITICAL") selected)
         /\ crit = List.length
                     (filter (fun c => String.eqb (ro_STOCK_STATUS c) "CRITICAL")
                        table).
Proof.
  intros Hrun selected.
  apply dashboard_rendered in Hrun as (_ & _ & _ & Hr).
  pose proof (reorder_df_perm (derive loaded)) as Hperm.
  fold selected in Hperm.
  split.
  - intro Hne. rewrite Hr. unfold render_reorder.
    destruct (reorder_df sort_values (derive loaded)) as [ | r rows] eqn:E.
    + apply Permutation_sym, Permutation_nil in Hperm. contradiction.
    + cbn [List.length Nat.ltb Nat.leb]. do 5 eexists. reflexivity.
  - intros table n total crit csv Hpanel.
    rewrite Hr in Hpanel.
    apply render_reorder_table in Hpanel as (_ & -> & -> & -> & -> & _).
    assert (Hsum : zsum (map SUGGESTED_REORDER_QTY
                           (reorder_df sort_values (derive loaded)))
                   = zsum (map SUGGESTED_REORDER_QTY selected))
      by (symmetry; now apply zsum_perm, Permutation_map).
    exists (reorder_df sort_values (derive loaded)).
    split; [reflexivity | ].
    split; [exact Hperm | ].
    split; [intro r; apply reorder_df_in | ].
    split; [apply reorder_df_ascending | ].
    split; [symmetry; now apply Permutation_length | ].
    split; [now rewrite length_map | ].
    split; [unfold series_sum; now rewrite Hsum | ].
    split; [unfold series_sum; now rewrite map_map | ].
    split.
    { intro Hlt. unfold series_sum. rewrite map_map.
      change (fun x => ro_SUGGESTED_REORDER_QTY (reorder_cols x))
        with SUGGESTED_REORDER_QTY.
      rewrite Hsum. rewrite int64_wrap_small; [tauto | ].
      split; [ | exact Hlt].
      transitivity 0%Z; [lia | ].
      apply zsum_nonneg, Forall_map, Forall_forall.
      intros r Hin. apply filter_In in Hin as [_ Hq]. lia. }
    split; [symmetry; now apply Permutation_length, filter_perm | ].
    now rewrite filter_map_length.
Qed.

(** C9.  The top-critical subset is the first min(3, k) entries, in order,
    of the CRITICAL rows of the alert ordering, k being their number: all
    of them when k < 3, none when k = 0; and the narrative shown with a
    non-empty alert table is made of exactly these rows. *)
Theorem C9_top_critical_prefix (loaded : DataFrame) :
  let alerts := alerts_df sort_values (derive loaded) in
  let critical := filter (status_is "CRITICAL") alerts in
  let k := List.length critical in
  top_critical alerts = firstn (Nat.min 3 k) critical
  /\ List.length (top_critical alerts) = Nat.min 3 k
  /\ ((k < 3)%nat -> top_critical alerts = critical)
  /\ (k = 0%nat -> top_critical alerts = [])
  /\ (forall table top,
        render_alerts alerts = AlertsTable table top ->
        top = map priority_action (firstn (Nat.min 3 k) critical)).
Proof.
  intros alerts critical k.
  assert (Hmin : top_critical alerts = firstn (Nat.min 3 k) critical).
  { unfold top_critical, head. fold critical.
    destruct (Nat.le_ge_cases 3 k) as [H | H].
    - now rewrite Nat.min_l.
    - rewrite Nat.min_r by exact H. subst k.
      now rewrite firstn_all, firstn_all2. }
  split; [exact Hmin | split; [ | split; [ | split]]].
  - rewrite Hmin, length_firstn. fold k. lia.
  - intro Hk. rewrite Hmin, Nat.min_r by lia. subst k. apply firstn_all.
  - intro Hk. rewrite Hmin, Hk. reflexivity.
  - intros table top Hpanel.
    apply render_alerts_table in Hpanel as (_ & _ & ->).
    now rewrite Hmin.
Qed.

(** C10.  The pipeline assigns only the AVG_DAILY_USAGE,
    DAYS_UNTIL_STOCKOUT and STOCK_STATUS columns: every derived row keeps
    the other loaded fields, and each line of the alert table, of the
    reorder table and of the CSV export shows, for the loaded row it comes
    from, the loaded location, item, closing_stock, lead_time_days and
    suggested_reorder_qty (those of them the view has). *)
Theorem C10_loaded_fields_unchanged (loaded : DataFrame) (d : Dashboard) :
  dashboard sort_values loaded = Rendered d ->
  derive loaded = map derive_row loaded
  /\ (forall r, unchanged_columns r (derive_row r))
  /\ (forall table top cols css,
        alerts_panel d = AlertsTable table top ->
        In (cols, css) table ->
        exists r, In r loaded
          /\ al_LOCATION cols = LOCATION r
          /\ al_ITEM cols = ITEM r
          /\ al_CLOSING_STOCK cols = CLOSING_STOCK r
          /\ al_SUGGESTED_REORDER_QTY cols = SUGGESTED_REORDER_QTY r)
  /\ (forall table n total crit csv,
        reorder_panel d = ReorderTable table n total crit csv ->
        csv = to_csv table
        /\ csv_header csv = reorder_header
        /\ (forall cols, In cols table ->
             exists r, In r loaded
               /\ ro_LOCATION cols = LOCATION r
               /\ ro_ITEM cols = ITEM r
               /\ ro_CLOSING_STOCK cols = CLOSING_STOCK r
               /\ ro_LEAD_TIME_DAYS cols = LEAD_TIME_DAYS r
               /\ ro_SUGGESTED_REORDER_QTY cols = SUGGESTED_REORDER_QTY r)
        /\ (forall line, In line (csv_lines csv) ->
             exists r, In r loaded
               /\ line = [CText (LOCATION r); CText (ITEM r);
                          CInt (CLOSING_STOCK r); CInt (LEAD_TIME_DAYS r);
                          CFloat (DAYS_UNTIL_STOCKOUT (derive_row r));
                          CInt (SUGGESTED_REORDER_QTY r);
                          CText (STOCK_STATUS (derive_row r))])).
Proof.
  intro Hrun.
  apply dashboard_rendered in Hrun as (_ & _ & Ha & Hr).
  split; [apply derive_map | split; [ | split]].
  - intro r. repeat split.
  - intros table top cols css Hpanel Hin.
    rewrite Ha in Hpanel.
    apply render_alerts_table in Hpanel as (_ & -> & _).
    apply in_map_iff in Hin as (r' & Heq & Hin).
    injection Heq as <- _.
    apply alerts_df_in in Hin as [Hin _].
    apply in_derive in Hin as (r & Hin & ->).
    exists r. repeat split; auto.
  - intros table n total crit csv Hpanel.
    rewrite Hr in Hpanel.
    apply render_reorder_table in Hpanel as (_ & -> & _ & _ & _ & ->).
    split; [reflexivity | split; [reflexivity | split]].
    + intros cols Hin.
      apply in_map_iff in Hin as (r' & <- & Hin).
      apply reorder_df_in in Hin as [Hin _].
      apply in_derive in Hin as (r & Hin & ->).
      exists r. repeat split; auto.
    + intros line Hin. cbn in Hin.
      apply in_map_iff in Hin as (c & <- & Hin).
      apply in_map_iff in Hin as (r' & <- & Hin).
      apply reorder_df_in in Hin as [Hin _].
      apply in_derive in Hin as (r & Hin & ->).
      exists r. split; [exact Hin | reflexivity].
Qed.

(** ** The heatmap grid *)

Lemma index_of_nth (x : string) (l : list string) (i : nat) :
  index_of x l = Some i -> nth_error l i = Some x.
Proof.
  revert i. induction l as [ | y l IH]; cbn; [discriminate | ].
  intro i. destruct (String.eqb_spec x y) as [-> | Hne].
  - intro H. injection H as <-. reflexivity.
  - destruct (index_of x l) as [j | ]; cbn; [ | discriminate].
    intro H. injection H as <-. cbn. now apply IH.
Qed.

Lemma index_of_in (x : string) (l : list string) :
  In x l -> exists i, index_of x l = Some i.
Proof.
  induction l as [ | y l IH]; cbn; [tauto | ].
  intros Hin. destruct (String.eqb_spec x y) as [-> | Hne].
  - now exists 0%nat.
  - destruct Hin as [-> | Hin]; [congruence | ].
    destruct (IH Hin) as [i ->]. now exists (S i).
Qed.

Lemma sorted_unique_in (x : string) (col : list string) :
  In x (sorted_unique col) <-> In x col.
Proof.
  unfold sorted_unique. rewrite nodup_In.
  split; apply Permutation_in; [symmetry | ]; apply sort_by_perm.
Qed.

Lemma pt_cell_pivot_table (df : DataFrame) (item location : string) :
  pt_cell (pivot_table df) item location =
  match index_of item (sorted_unique (map ITEM df)),
        index_of location (sorted_unique (map LOCATION df)) with
  | Some _, Some _ => Some (group_mean (horizons_of df item location))
  | _, _ => None
  end.
Proof.
  unfold pt_cell, pivot_table. cbn [pt_index pt_columns pt_values].
  destruct (index_of item _) as [i | ] eqn:Ei; [ | reflexivity].
  destruct (index_of location _) as [j | ] eqn:Ej; [ | reflexivity].
  apply index_of_nth in Ei, Ej.
  rewrite (map_nth_error _ _ _ Ei), (map_nth_error _ _ _ Ej).
  reflexivity.
Qed.

Lemma fsum_finite (qs : list Q) : fsum (map Fin qs) = Fin (qsum qs).
Proof.
  induction qs as [ | q qs IH]; cbn; [reflexivity | ].
  unfold fsum in IH. now rewrite IH.
Qed.

Lemma group_mean_finite (qs : list Q) :
  qs <> [] -> group_mean (map Fin qs) = Fin (arithmetic_mean qs).
Proof.
  intro Hne. unfold group_mean.
  assert (Hall : filter (fun v => negb (isna v)) (map Fin qs) = map Fin qs).
  { clear Hne. induction qs as [ | q qs IH]; cbn; [reflexivity | now rewrite IH]. }
  rewrite Hall. destruct qs as [ | q qs]; [congruence | ].
  change (map Fin (q :: qs)) with (Fin q :: map Fin qs) at 1.
  cbv iota. rewrite fsum_finite, length_map. reflexivity.
Qed.

Lemma finite_values (l : list fval) :
  (forall v, In v l -> exists q, v = Fin q) -> exists qs, l = map Fin qs.
Proof.
  induction l as [ | v l IH]; intro H.
  - now exists [].
  - destruct (H v (or_introl eq_refl)) as [q ->].
    destruct IH as [qs ->]; [intros w Hw; apply H; now right | ].
    now exists (q :: qs).
Qed.

Lemma horizons_of_derive_finite (loaded : DataFrame) (item location : string) :
  exists qs, horizons_of (derive loaded) item location = map Fin qs.
Proof.
  apply finite_values. intros v Hv. unfold horizons_of in Hv.
  apply in_map_iff in Hv as (r' & <- & Hin).
  apply filter_In in Hin as [Hin _].
  apply in_derive in Hin as (r & _ & ->).
  rewrite derive_row_days. eauto.
Qed.

(** C8.  For every (item, location) pair that occurs in the snapshot the
    grid has a cell, and it is the arithmetic mean of days_until_stockout
    over all the rows that share the pair, however many they are.  For a
    pair that no row carries, the grid either has no such row or column,
    or its cell is the missing value [nan]; [nan] is not the number zero
    and is styled as no band, while zero is styled as the first band. *)
Theorem C8_risk_matrix_cells (loaded : DataFrame) (d : Dashboard) :
  dashboard sort_values loaded = Rendered d ->
  (forall r, In r (derive loaded) ->
     exists qs : list Q,
       qs <> []
       /\ horizons_of (derive loaded) (ITEM r) (LOCATION r) = map Fin qs
       /\ pt_cell (heatmap_data d) (ITEM r) (LOCATION r) =
            Some (Fin (arithmetic_mean qs)))
  /\ (forall item location,
       (forall r, In r (derive loaded) ->
                  ~ (ITEM r = item /\ LOCATION r = location)) ->
       pt_cell (heatmap_data d) item location = None
       \/ pt_cell (heatmap_data d) item location = Some NaN)
  /\ ~ feq NaN (Fin 0)
  /\ color_days NaN = ""
  /\ color_days (Fin 0) <> "".
Proof.
  intro Hrun.
  apply dashboard_rendered in Hrun as (_ & -> & _ & _).
  split; [ | split; [ | split; [ | split]]].
  - intros r Hin.
    destruct (horizons_of_derive_finite loaded (ITEM r) (LOCATION r))
      as [qs Hqs].
    assert (Hne : qs <> []).
    { intros ->. unfold horizons_of in Hqs. cbn in Hqs.
      apply map_eq_nil in Hqs.
      assert (Hr : In r (filter (in_group (ITEM r) (LOCATION r)) (derive loaded))).
      { apply filter_In. split; [exact Hin | ].
        unfold in_group. now rewrite !String.eqb_refl. }
      rewrite Hqs in Hr. exact Hr. }
    exists qs. split; [exact Hne | split; [exact Hqs | ]].
    rewrite pt_cell_pivot_table.
    destruct (index_of_in (ITEM r) (sorted_unique (map ITEM (derive loaded))))
      as [i ->].
    { apply sorted_unique_in, in_map, Hin. }
    destruct (index_of_in (LOCATION r)
                (sorted_unique (map LOCATION (derive loaded)))) as [j ->].
    { apply sorted_unique_in, in_map, Hin. }
    now rewrite Hqs, group_mean_finite.
  - intros item location Habsent.
    rewrite pt_cell_pivot_table.
    destruct (index_of item _); [ | now left].
    destruct (index_of location _); [ | now left].
    right. unfold horizons_of.
    replace (filter (in_group item location) (derive loaded)) with (@nil Row);
      [reflexivity | ].
    symmetry.
    induction (derive loaded) as [ | r df IH]; cbn; [reflexivity | ].
    destruct (in_group item location r) eqn:E.
    + exfalso. apply (Habsent r (or_introl eq_refl)).
      unfold in_group in E. apply andb_true_iff in E.
      rewrite !String.eqb_eq in E. exact E.
    + apply IH. intros r' Hr'. apply Habsent. now right.
  - cbn. tauto.
  - reflexivity.
  - cbn. discriminate.
Qed.

End DashboardFacts.

(** ** The statements at concrete snapshots *)

(** A row with no stock and no usage: horizon 0.0, CRITICAL. *)
Lemma C3_usage_column_overwritten_witness :
  let loaded := [loaded_row "Clinic_A" "Gauze" 0 0 50] in
  exists d table top,
    dashboard stable_sort_values loaded = Rendered d
    /\ alerts_panel d = AlertsTable table top
    /\ (forall cols css, In (cols, css) table ->
          exists r, In r loaded
            /\ cols = display_cols (derive_row r)
            /\ al_AVG_DAILY_USAGE cols =
                 (if Qeq_bool (AVG_DAILY_USAGE r) 0 then 1 # 100
                  else AVG_DAILY_USAGE r)).
Proof.
  intro loaded. do 3 eexists.
  split; [reflexivity | split; [reflexivity | ]].
  apply (C3_usage_column_overwritten stable_sort_values
           stable_sort_values_contract loaded _ _ _ eq_refl eq_refl).
Defined.

(** C3 as stated fails: a row loaded with avg_daily_usage = 0 (and no
    stock, so that it is CRITICAL and listed) appears in the alert table
    with AVG_DAILY_USAGE = 0.01, which is not the loaded value 0. *)
Lemma C3_counterexample :
  let r := loaded_row "Clinic_A" "Gauze" 0 0 50 in
  AVG_DAILY_USAGE r == 0
  /\ (exists d css top,
        dashboard stable_sort_values [r] = Rendered d
        /\ alerts_panel d =
             AlertsTable
               [(mkAlertCols "Clinic_A" "Gauze" 0 (1 # 100) (Fin (0 # 10)) "CRITICAL" 50,
                 css)]
               top)
  /\ ~ (1 # 100) == AVG_DAILY_USAGE r.
Proof.
  cbv zeta. split; [reflexivity | split].
  - do 3 eexists. split; reflexivity.
  - discriminate.
Qed.

Lemma C4_empty_snapshot_stops_witness :
  dashboard stable_sort_values [] = Stopped no_data_message
  /\ (exists d, dashboard stable_sort_values example_frame = Rendered d).
Proof.
  destruct (C4_empty_snapshot_stops stable_sort_values
              stable_sort_values_contract) as (Hstop & Hrun & _).
  split; [exact Hstop | ].
  apply Hrun. discriminate.
Defined.

(** C4 as stated fails: on a snapshot of zero rows the run is stopped with
    the "No data found" error, and no matrix, alert state or reorder state
    is produced. *)
Lemma C4_counterexample :
  dashboard stable_sort_values [] = Stopped no_data_message
  /\ ~ (exists d, dashboard stable_sort_values [] = Rendered d).
Proof.
  split; [reflexivity | ].
  intros [d H]. discriminate H.
Qed.


(** On a frame of at most 17 rows numpy's quicksort is its insertion sort:
    two rows of equal horizon stay in their snapshot order. *)
Lemma quicksort_keeps_two_tied_rows :
  let a := loaded_row "Clinic_A" "Gauze" 4 4 50 in
  let b := loaded_row "Clinic_B" "Gloves" 2 2 50 in
  DAYS_UNTIL_STOCKOUT (derive_row a) = DAYS_UNTIL_STOCKOUT (derive_row b)
  /\ alerts_df quicksort_sort_values (derive [a; b]) = [derive_row a; derive_row b].
Proof. split; reflexivity. Qed.


Lemma C7_reorder_list_rollups_witness :
  exists d table n total crit csv,
    dashboard stable_sort_values example_frame = Rendered d
    /\ reorder_panel d = ReorderTable table n total crit csv
    /\ (n, total, crit) = (2%nat, 70%Z, 1%nat)
    /\ n = List.length table
    /\ total = zsum (map ro_SUGGESTED_REORDER_QTY table)
    /\ crit = List.length
                (filter (fun c => String.eqb (ro_STOCK_STATUS c) "CRITICAL") table).
Proof.
  do 6 eexists.
  split; [reflexivity | split; [reflexivity | split; [reflexivity | ]]].
  destruct (C7_reorder_list_rollups stable_sort_values
              stable_sort_values_contract example_frame _ eq_refl)
    as (_ & H).
  destruct (H _ _ _ _ _ eq_refl)
    as (rows & _ & _ & _ & _ & _ & Hn & _ & _ & Ht & _ & Hc).
  destruct Ht as (_ & Ht); [vm_compute; reflexivity | ].
  exact (conj Hn (conj Ht Hc)).
Defined.

(** C7 as stated fails when the quantities add up to 2^63 or more: two
    rows of 2^62 units each are shown with the total -2^63, the int64 sum
    wrapped around, where the sum of the selected quantities is 2^63. *)
Lemma C7_counterexample :
  let loaded :=
    [loaded_row "Clinic_A" "Gauze" 4 2 4611686018427387904;
     loaded_row "Clinic_B" "Gloves" 12 3 4611686018427387904] in
  exists d table crit csv,
    dashboard stable_sort_values loaded = Rendered d
    /\ reorder_panel d =
         ReorderTable table 2 (-9223372036854775808) crit csv
    /\ map ro_SUGGESTED_REORDER_QTY table
       = [4611686018427387904; 4611686018427387904]%Z
    /\ zsum (map ro_SUGGESTED_REORDER_QTY table) = 9223372036854775808%Z
    /\ (-9223372036854775808)%Z <> zsum (map ro_SUGGESTED_REORDER_QTY table).
Proof.
  cbv zeta. do 4 eexists.
  split; [reflexivity | split; [vm_compute; reflexivity | ]].
  split; [reflexivity | split; [reflexivity | discriminate]].
Qed.

(** The duplicated pair (Gauze, Clinic_B) has horizons 8.0 and 3.0. *)
Lemma C8_risk_matrix_cells_witness :
  exists d,
    dashboard stable_sort_values example_frame = Rendered d
    /\ (exists qs, qs <> []
          /\ horizons_of (derive example_frame) "Gauze" "Clinic_B" = map Fin qs
          /\ pt_cell (heatmap_data d) "Gauze" "Clinic_B" =
               Some (Fin (arithmetic_mean qs)))
    /\ pt_cell (heatmap_data d) "Gloves" "Clinic_B" = Some NaN.
Proof.
  eexists. split; [reflexivity | ].
  destruct (C8_risk_matrix_cells stable_sort_values example_frame _ eq_refl)
    as (Hcell & _).
  split; [ | reflexivity].
  apply (Hcell (derive_row (loaded_row "Clinic_B" "Gauze" 16 2 20))).
  cbn. tauto.
Defined.

Lemma C9_top_critical_prefix_witness :
  let alerts := alerts_df stable_sort_values (derive example_frame) in
  top_critical alerts = filter (status_is "CRITICAL") alerts
  /\ List.length (top_critical alerts) = 1%nat.
Proof.
  intro alerts.
  destruct (C9_top_critical_prefix stable_sort_values example_frame)
    as (_ & Hlen & Hall & _).
  split.
  - apply Hall. vm_compute. lia.
  - exact Hlen.
Defined.

Lemma C10_loaded_fields_unchanged_witness :
  exists d,
    dashboard stable_sort_values example_frame = Rendered d
    /\ derive example_frame = map derive_row example_frame
    /\ (forall r, unchanged_columns r (derive_row r)).
Proof.
  eexists. split; [reflexivity | ].
  destruct (C10_loaded_fields_unchanged stable_sort_values
              stable_sort_values_contract example_frame _ eq_refl)
    as (Hmap & Hrow & _).
  exact (conj Hmap Hrow).
Defined.

(** * Further properties of the dashboard page *)

(** ** Rounding *)

Lemma rint_comp (x y : Q) : x == y -> rint x = rint y.
Proof.
  intro H. unfold rint.
  assert (Hf : Qfloor x = Qfloor y) by now rewrite H.
  rewrite Hf.
  assert (Hc : Qcompare (x - inject_Z (Qfloor y)) (1 # 2) =
               Qcompare (y - inject_Z (Qfloor y)) (1 # 2)) by now rewrite H.
  now rewrite Hc.
Qed.

Lemma rint_inject_Z (z : Z) : rint (inject_Z z) = z.
Proof.
  unfold rint. rewrite Qfloor_Z.
  assert (H : inject_Z z - inject_Z z < 1 # 2) by (ring_simplify; reflexivity).
  apply Qlt_alt in H.
  destruct (Qcompare_spec (inject_Z z - inject_Z z) (1 # 2)) as [He | Hl | Hg];
    [ | reflexivity | ].
  - assert (Hz : inject_Z z - inject_Z z == 0) by ring.
    rewrite Hz in He. discriminate He.
  - assert (Hz : inject_Z z - inject_Z z == 0) by ring.
    rewrite Hz in Hg. discriminate Hg.
Qed.

Lemma rint_near (q : Q) :
  inject_Z (rint q) - (1 # 2) <= q /\ q <= inject_Z (rint q) + (1 # 2).
Proof.
  unfold rint.
  pose proof (Qfloor_le q) as Hlo. pose proof (Qlt_floor q) as Hhi.
  rewrite inject_Z_plus in Hhi. change (inject_Z 1) with 1 in Hhi.
  destruct (Qcompare_spec (q - inject_Z (Qfloor q)) (1 # 2)) as [He | Hl | Hg].
  - destruct (Z.even (Qfloor q)).
    + split; lra.
    + rewrite inject_Z_plus. change (inject_Z 1) with 1. split; lra.
  - split; lra.
  - rewrite inject_Z_plus. change (inject_Z 1) with 1. split; lra.
Qed.

Lemma Qmake_tenth (z : Z) : z # 10 == inject_Z z / 10.
Proof. apply (Qmake_Qdiv z 10). Qed.

Lemma round1_near (q : Q) :
  round1 q - (1 # 20) <= q /\ q <= round1 q + (1 # 20).
Proof.
  unfold round1. rewrite Qmake_tenth.
  destruct (rint_near (q * 10)) as [H1 H2].
  set (z := inject_Z (rint (q * 10))) in *.
  split.
  - apply Qmult_le_r with (z := 10); [reflexivity | ].
    field_simplify. lra.
  - apply Qmult_le_r with (z := 10); [reflexivity | ].
    field_simplify. lra.
Qed.

Lemma round1_tenths (z : Z) : round1 (z # 10) = z # 10.
Proof.
  unfold round1. f_equal.
  rewrite <- (rint_inject_Z z) at 2. apply rint_comp.
  rewrite Qmake_tenth. field.
Qed.

Lemma round1_zero (q : Q) : q == 0 -> round1 q = 0 # 10.
Proof.
  intro H. unfold round1. f_equal.
  rewrite <- (rint_inject_Z 0). apply rint_comp. rewrite H. reflexivity.
Qed.

(** ** Rows *)

Lemma classify_stock_cases (row : Row) :
  (classify_stock row = "CRITICAL" /\ fle_const (DAYS_UNTIL_STOCKOUT row) 2 = true)
  \/ (classify_stock row = "WARNING"
      /\ fle_const (DAYS_UNTIL_STOCKOUT row) 2 = false
      /\ fle_const (DAYS_UNTIL_STOCKOUT row) 5 = true)
  \/ (classify_stock row = "HEALTHY"
      /\ fle_const (DAYS_UNTIL_STOCKOUT row) 5 = false
      /\ fle_const (DAYS_UNTIL_STOCKOUT row) 10 = true)
  \/ (classify_stock row = "OVERSTOCK"
      /\ fle_const (DAYS_UNTIL_STOCKOUT row) 10 = false).
Proof.
  unfold classify_stock.
  destruct (fle_const (DAYS_UNTIL_STOCKOUT row) 2);
    destruct (fle_const (DAYS_UNTIL_STOCKOUT row) 5);
    destruct (fle_const (DAYS_UNTIL_STOCKOUT row) 10); tauto.
Qed.

Lemma fle_const_down (a b : fval) (c : Q) :
  key_le a b -> fle_const b c = true -> fle_const a c = true.
Proof.
  unfold key_le.
  destruct a as [x | | | ], b as [y | | | ]; cbn; try congruence.
  intros H1 H2. apply Qle_bool_iff in H1, H2. apply Qle_bool_iff. lra.
Qed.

(** X1.  The classifier is monotone: a row whose horizon comes no later in
    the ascending order of horizons gets a bucket at least as urgent.
    CRITICAL is the most urgent bucket, OVERSTOCK the least. *)
Theorem classify_stock_monotone (r1 r2 : Row) :
  key_le (DAYS_UNTIL_STOCKOUT r1) (DAYS_UNTIL_STOCKOUT r2) ->
  (urgency_rank (classify_stock r1) <= urgency_rank (classify_stock r2))%nat.
Proof.
  intro Hle.
  pose proof (fle_const_down _ _ 2 Hle) as H2.
  pose proof (fle_const_down _ _ 5 Hle) as H5.
  pose proof (fle_const_down _ _ 10 Hle) as H10.
  unfold classify_stock.
  destruct (fle_const (DAYS_UNTIL_STOCKOUT r1) 2),
    (fle_const (DAYS_UNTIL_STOCKOUT r1) 5),
    (fle_const (DAYS_UNTIL_STOCKOUT r1) 10),
    (fle_const (DAYS_UNTIL_STOCKOUT r2) 2),
    (fle_const (DAYS_UNTIL_STOCKOUT r2) 5),
    (fle_const (DAYS_UNTIL_STOCKOUT r2) 10);
    cbn; try lia;
    try (specialize (H2 eq_refl); discriminate);
    try (specialize (H5 eq_refl); discriminate);
    try (specialize (H10 eq_refl); discriminate).
Qed.

Lemma classify_stock_monotone_witness :
  let r1 := set_DAYS_UNTIL_STOCKOUT (loaded_row "Clinic_A" "Gauze" 3 2 0) (Fin (15 # 10)) in
  let r2 := set_DAYS_UNTIL_STOCKOUT (loaded_row "Clinic_A" "Gloves" 7 1 0) (Fin 7) in
  (urgency_rank (classify_stock r1) <= urgency_rank (classify_stock r2))%nat.
Proof.
  intros r1 r2. apply (classify_stock_monotone r1 r2). reflexivity.
Defined.

(** X2.  The heatmap bands use the classifier's thresholds: a value that is
    not missing is styled with the band of the bucket the classifier
    gives a row of that horizon. *)
Theorem color_days_matches_classify_stock (row : Row) :
  isna (DAYS_UNTIL_STOCKOUT row) = false ->
  color_days (DAYS_UNTIL_STOCKOUT row) = status_band (classify_stock row).
Proof.
  intro Hna. unfold color_days, classify_stock. rewrite Hna.
  destruct (fle_const (DAYS_UNTIL_STOCKOUT row) 2);
    destruct (fle_const (DAYS_UNTIL_STOCKOUT row) 5);
    destruct (fle_const (DAYS_UNTIL_STOCKOUT row) 10); reflexivity.
Qed.

Lemma color_days_matches_classify_stock_witness :
  let row := set_DAYS_UNTIL_STOCKOUT (loaded_row "Clinic_A" "Gauze" 9 2 0) (Fin (45 # 10)) in
  color_days (DAYS_UNTIL_STOCKOUT row) = status_band "WARNING".
Proof.
  intro row. apply (color_days_matches_classify_stock row). reflexivity.
Defined.

Lemma replace_zero_idempotent (u : Q) :
  replace 0 epsilon (replace 0 epsilon u) = replace 0 epsilon u.
Proof.
  unfold replace at 1. now rewrite replace_zero_nonzero.
Qed.

(** X3.  Deriving the columns again from an already derived frame changes
    nothing: the usage column holds no zero any more, so the same horizons
    and buckets come out. *)
Theorem derive_idempotent (df : DataFrame) : derive (derive df) = derive df.
Proof.
  rewrite !derive_map, map_map. apply map_ext. intro r.
  unfold derive_row, assign_status, calc_days, fix_usage.
  unfold set_STOCK_STATUS, set_DAYS_UNTIL_STOCKOUT, set_AVG_DAILY_USAGE,
    classify_stock; cbn.
  now rewrite replace_zero_idempotent.
Qed.

(** X5.  A row with no stock left has horizon 0.0 and is CRITICAL, whatever
    its usage (zero and negative usage included). *)
Theorem zero_stock_is_critical (r : Row) :
  CLOSING_STOCK r = 0%Z ->
  DAYS_UNTIL_STOCKOUT (derive_row r) = Fin (0 # 10)
  /\ STOCK_STATUS (derive_row r) = "CRITICAL".
Proof.
  intro Hc.
  assert (Hd : DAYS_UNTIL_STOCKOUT (derive_row r) = Fin (0 # 10)).
  { rewrite derive_row_days, Hc.
    rewrite (round1_zero (inject_Z 0 / _)); [reflexivity | ].
    unfold Qdiv. ring. }
  split; [exact Hd | ].
  change (STOCK_STATUS (derive_row r))
    with (classify_stock (calc_days (fix_usage r))).
  unfold classify_stock.
  change (DAYS_UNTIL_STOCKOUT (calc_days (fix_usage r)))
    with (DAYS_UNTIL_STOCKOUT (derive_row r)).
  now rewrite Hd.
Qed.

Lemma zero_stock_is_critical_witness :
  let r := loaded_row "Clinic_A" "Gauze" 0 (7 # 2) 40 in
  STOCK_STATUS (derive_row r) = "CRITICAL".
Proof.
  intro r. apply (zero_stock_is_critical r). reflexivity.
Defined.

(** X6.  A row with stock in hand and a loaded usage of 0 is OVERSTOCK, and
    so is not selected for the alert list. *)
Theorem zero_usage_is_overstock (r : Row) :
  AVG_DAILY_USAGE r == 0 ->
  (0 < CLOSING_STOCK r)%Z ->
  STOCK_STATUS (derive_row r) = "OVERSTOCK"
  /\ isin ["CRITICAL"; "WARNING"] (STOCK_STATUS (derive_row r)) = false.
Proof.
  intros Hu Hc.
  assert (Hd : DAYS_UNTIL_STOCKOUT (derive_row r) =
               Fin ((1000 * CLOSING_STOCK r) # 10)).
  { rewrite derive_row_days.
    destruct (replace_zero_cases (AVG_DAILY_USAGE r)) as [[_ ->] | [Hn _]];
      [ | contradiction].
    unfold round1. do 2 f_equal.
    rewrite <- (rint_inject_Z (1000 * CLOSING_STOCK r)). apply rint_comp.
    rewrite inject_Z_mult. unfold epsilon. field. }
  assert (Hs : STOCK_STATUS (derive_row r) = "OVERSTOCK").
  { change (STOCK_STATUS (derive_row r))
      with (classify_stock (calc_days (fix_usage r))).
    unfold classify_stock.
    change (DAYS_UNTIL_STOCKOUT (calc_days (fix_usage r)))
      with (DAYS_UNTIL_STOCKOUT (derive_row r)).
    rewrite Hd. cbn [fle_const].
    assert (H : forall c : Q, c <= 10 ->
                Qle_bool ((1000 * CLOSING_STOCK r) # 10) c = false).
    { intros c Hc10. apply Qle_bool_false.
      apply Qle_lt_trans with (y := 10); [exact Hc10 | ].
      unfold Qlt. cbn [Qnum Qden]. lia. }
    rewrite !H; [reflexivity | | | ]; unfold Qle; cbn [Qnum Qden]; lia. }
  split; [exact Hs | now rewrite Hs].
Qed.

Lemma zero_usage_is_overstock_witness :
  let r := loaded_row "Clinic_B" "Syringes" 100 0 0 in
  STOCK_STATUS (derive_row r) = "OVERSTOCK".
Proof.
  intro r. destruct (zero_usage_is_overstock r) as [H _].
  - reflexivity.
  - cbn. lia.
  - exact H.
Defined.

(** X7.  The top-priority narrative shows the figures of the alert table:
    printing the horizon with one decimal gives the derived horizon back,
    and the stock and the suggested order are the row's own. *)
Theorem priority_action_shows_row (r : Row) :
  let row := derive_row r in
  pa_days_remaining (priority_action row) = al_DAYS_UNTIL_STOCKOUT (display_cols row)
  /\ pa_current_stock (priority_action row) = al_CLOSING_STOCK (display_cols row)
  /\ pa_suggested_order (priority_action row) = al_SUGGESTED_REORDER_QTY (display_cols row)
  /\ pa_ITEM (priority_action row) = al_ITEM (display_cols row)
  /\ pa_LOCATION (priority_action row) = al_LOCATION (display_cols row).
Proof.
  intro row. repeat split.
  subst row. cbn [priority_action pa_days_remaining display_cols al_DAYS_UNTIL_STOCKOUT].
  rewrite derive_row_days. cbn [fround1]. f_equal.
  unfold round1 at 1. apply round1_tenths.
Qed.

(** ** Frames *)

Lemma derive_row_status (r : Row) :
  STOCK_STATUS (derive_row r) = classify_stock (derive_row r).
Proof. reflexivity. Qed.

Lemma derived_status (loaded : DataFrame) (r : Row) :
  In r (derive loaded) -> STOCK_STATUS r = classify_stock r.
Proof.
  intro H. apply in_derive in H as (r0 & _ & ->). apply derive_row_status.
Qed.

Lemma derived_critical (loaded : DataFrame) (r : Row) :
  In r (derive loaded) ->
  status_is "CRITICAL" r = fle_const (DAYS_UNTIL_STOCKOUT r) 2.
Proof.
  intro H. unfold status_is. rewrite (derived_status loaded r H).
  unfold classify_stock.
  destruct (fle_const (DAYS_UNTIL_STOCKOUT r) 2);
    destruct (fle_const (DAYS_UNTIL_STOCKOUT r) 5);
    destruct (fle_const (DAYS_UNTIL_STOCKOUT r) 10); reflexivity.
Qed.

Lemma derived_alert (loaded : DataFrame) (r : Row) :
  In r (derive loaded) ->
  isin ["CRITICAL"; "WARNING"] (STOCK_STATUS r) = fle_const (DAYS_UNTIL_STOCKOUT r) 5
  \/ (fle_const (DAYS_UNTIL_STOCKOUT r) 2 = true
      /\ fle_const (DAYS_UNTIL_STOCKOUT r) 5 = false).
Proof.
  intro H. rewrite (derived_status loaded r H). unfold classify_stock.
  destruct (fle_const (DAYS_UNTIL_STOCKOUT r) 2);
    destruct (fle_const (DAYS_UNTIL_STOCKOUT r) 5);
    destruct (fle_const (DAYS_UNTIL_STOCKOUT r) 10); cbn; tauto.
Qed.

Lemma fle_const_widen (a : fval) (c c' : Q) :
  c <= c' -> fle_const a c = true -> fle_const a c' = true.
Proof.
  intros Hc. destruct a as [x | | | ]; cbn; try congruence.
  intro H. apply Qle_bool_iff in H. apply Qle_bool_iff. lra.
Qed.

Lemma filter_cons_length {A : Type} (p : A -> bool) (x : A) (l : list A) :
  List.length (filter p (x :: l)) =
  ((if p x then 1 else 0) + List.length (filter p l))%nat.
Proof. cbn. now destruct (p x). Qed.

Lemma filter_of_filter {A : Type} (p q : A -> bool) (l : list A) :
  (forall x, p x = true -> q x = true) ->
  filter p (filter q l) = filter p l.
Proof.
  intro H. induction l as [ | x l IH]; [reflexivity | ].
  cbn [filter]. destruct (q x) eqn:Eq.
  - cbn [filter]. now rewrite IH.
  - destruct (p x) eqn:Ep; [ | exact IH].
    rewrite (H x Ep) in Eq. discriminate.
Qed.

Lemma filter_length_le {A : Type} (p : A -> bool) (l : list A) :
  (List.length (filter p l) <= List.length l)%nat.
Proof.
  induction l as [ | x l IH]; [cbn; lia | ].
  rewrite filter_cons_length. cbn [List.length]. destruct (p x); lia.
Qed.

Lemma status_count_partition (df : DataFrame) :
  (forall r, In r df -> STOCK_STATUS r = classify_stock r) ->
  (List.length (filter (status_is "CRITICAL") df)
   + List.length (filter (status_is "WARNING") df)
   + List.length (filter (status_is "HEALTHY") df)
   + List.length (filter (status_is "OVERSTOCK") df))%nat
  = List.length df.
Proof.
  induction df as [ | r df IH]; intro H; [reflexivity | ].
  specialize (IH (fun x Hx => H x (or_intror Hx))).
  pose proof (H r (or_introl eq_refl)) as Hr.
  rewrite !filter_cons_length.
  set (a := List.length (filter (status_is "CRITICAL") df)) in *.
  set (b := List.length (filter (status_is "WARNING") df)) in *.
  set (c := List.length (filter (status_is "HEALTHY") df)) in *.
  set (e := List.length (filter (status_is "OVERSTOCK") df)) in *.
  unfold status_is. rewrite Hr.
  destruct (classify_stock_cases r) as [[-> _] | [[-> _] | [[-> _] | [-> _]]]];
    cbn [String.eqb Ascii.eqb Bool.eqb List.length]; lia.
Qed.

(** In a list sorted for [R], the elements that satisfy a predicate closed
    under going down in [R] come first. *)
Lemma sorted_down_closed_split {A : Type} (R : A -> A -> Prop) (p : A -> bool)
    (l : list A) :
  (forall a b, R a b -> p b = true -> p a = true) ->
  StronglySorted R l ->
  l = (filter p l ++ filter (fun x => negb (p x)) l)%list.
Proof.
  intros Hdown Hs. induction Hs as [ | x l Hs IH Hx]; [reflexivity | ].
  cbn [filter]. destruct (p x) eqn:E; cbn [negb app].
  - now rewrite <- IH.
  - assert (Hnone : filter p l = []).
    { clear IH Hs. induction l as [ | y l IHl]; [reflexivity | ].
      cbn. inversion Hx as [ | ? ? Hy Hl]; subst.
      destruct (p y) eqn:Ey.
      - rewrite (Hdown x y Hy Ey) in E. discriminate.
      - now apply IHl. }
    rewrite Hnone in *. cbn [app] in *. now rewrite <- IH.
Qed.

Lemma nodup_nonempty (l : list string) : l <> [] -> nodup string_dec l <> [].
Proof.
  destruct l as [ | x l]; [congruence | ]. intros _ H.
  assert (Hin : In x (nodup string_dec (x :: l))) by (apply nodup_In; now left).
  rewrite H in Hin. exact Hin.
Qed.

Lemma nodup_length_le (l : list string) :
  (List.length (nodup string_dec l) <= List.length l)%nat.
Proof.
  induction l as [ | x l IH]; cbn; [lia | ].
  destruct (in_dec string_dec x l); cbn; lia.
Qed.

Lemma zsum_at_least_length (l : list Z) :
  Forall (fun z => (1 <= z)%Z) l -> (Z.of_nat (List.length l) <= zsum l)%Z.
Proof.
  unfold zsum. induction 1 as [ | z l Hz _ IH]; cbn [fold_right List.length]; lia.
Qed.

Lemma filter_filter_length_le {A : Type} (p q : A -> bool) (l : list A) :
  (List.length (filter p (filter q l)) <= List.length (filter p l))%nat.
Proof.
  induction l as [ | x l IH]; [cbn; lia | ].
  cbn [filter]. destruct (q x); rewrite ?filter_cons_length;
    destruct (p x); cbn [List.length]; lia.
Qed.

Section DashboardInvariants.

Variable sort_values : (Row -> fval) -> DataFrame -> DataFrame.
Hypothesis sort_values_ok : sort_values_contract sort_values.

Lemma dashboard_rendered_counts (loaded : DataFrame) (d : Dashboard) :
  dashboard sort_values loaded = Rendered d ->
  loaded_items d = List.length (derive loaded)
  /\ loaded_locations d = nunique (map LOCATION (derive loaded))
  /\ critical_count d = List.length (filter (status_is "CRITICAL") (derive loaded))
  /\ warning_count d = List.length (filter (status_is "WARNING") (derive loaded))
  /\ healthy_count d = List.length (filter (status_is "HEALTHY") (derive loaded))
  /\ overstock_count d = List.length (filter (status_is "OVERSTOCK") (derive loaded)).
Proof.
  unfold dashboard. destruct (derive loaded) as [ | r df]; [discriminate | ].
  intro H. injection H as <-. repeat split.
Qed.

(** X8.  The four headline counts partition the snapshot: they add up to
    the number of loaded rows that the success banner reports, and the
    banner's number of locations lies between 1 and the number of rows. *)
Theorem headline_counts_partition (loaded : DataFrame) (d : Dashboard) :
  dashboard sort_values loaded = Rendered d ->
  (critical_count d + warning_count d + healthy_count d + overstock_count d)%nat
    = loaded_items d
  /\ loaded_items d = List.length loaded
  /\ (1 <= loaded_locations d <= loaded_items d)%nat.
Proof.
  intro Hrun.
  assert (Hne : derive loaded <> []).
  { apply (dashboard_rendered sort_values) in Hrun as (Hl & _).
    rewrite derive_map. destruct loaded; [congruence | discriminate]. }
  apply dashboard_rendered_counts in Hrun as (-> & -> & -> & -> & -> & ->).
  split; [ | split].
  - apply status_count_partition. intros x Hx. now apply (derived_status loaded).
  - now rewrite derive_map, length_map.
  - unfold nunique. split.
    + assert (Hn : nodup string_dec (map LOCATION (derive loaded)) <> []).
      { apply nodup_nonempty. intro H. apply map_eq_nil in H. contradiction. }
      destruct (nodup string_dec (map LOCATION (derive loaded)));
        [congruence | cbn; lia].
    + rewrite <- (length_map LOCATION (derive loaded)). apply nodup_length_le.
Qed.

(** X9.  In the alert list the CRITICAL rows come first and the WARNING
    rows after them, so the top-priority rows are the first rows of the
    alert table itself. *)
Theorem alerts_critical_first (loaded : DataFrame) :
  let alerts := alerts_df sort_values (derive loaded) in
  let k := List.length (filter (status_is "CRITICAL") alerts) in
  alerts = (filter (status_is "CRITICAL") alerts
            ++ filter (status_is "WARNING") alerts)%list
  /\ top_critical alerts = firstn (Nat.min 3 k) alerts.
Proof.
  intros alerts k.
  assert (Hin : forall r, In r alerts -> In r (derive loaded)).
  { intros r Hr. now apply (alerts_df_in sort_values sort_values_ok) in Hr. }
  assert (Hcrit : filter (status_is "CRITICAL") alerts =
                  filter (fun r => fle_const (DAYS_UNTIL_STOCKOUT r) 2) alerts).
  { apply filter_ext_in. intros r Hr. apply (derived_critical loaded), Hin, Hr. }
  assert (Hwarn : filter (status_is "WARNING") alerts =
                  filter (fun r => negb (fle_const (DAYS_UNTIL_STOCKOUT r) 2)) alerts).
  { apply filter_ext_in. intros r Hr.
    pose proof (derived_critical loaded r (Hin r Hr)) as Hc.
    apply (alerts_df_in sort_values sort_values_ok) in Hr as [_ [Hs | Hs]];
      unfold status_is in *; rewrite Hs in *; cbn in Hc |- *; now rewrite <- Hc. }
  assert (Hsplit : alerts = (filter (status_is "CRITICAL") alerts
                             ++ filter (status_is "WARNING") alerts)%list).
  { rewrite Hcrit, Hwarn.
    apply (sorted_down_closed_split
             (fun a b => key_le (DAYS_UNTIL_STOCKOUT a) (DAYS_UNTIL_STOCKOUT b))).
    - intros a b. apply fle_const_down.
    - apply (alerts_df_ascending sort_values sort_values_ok). }
  split; [exact Hsplit | ].
  unfold top_critical, head. fold k.
  rewrite Hsplit at 2.
  rewrite firstn_app.
  replace (Nat.min 3 k - List.length (filter (status_is "CRITICAL") alerts))%nat
    with 0%nat by (fold k; lia).
  rewrite firstn_0, app_nil_r.
  destruct (Nat.le_ge_cases 3 k) as [H | H].
  - now rewrite Nat.min_l.
  - rewrite Nat.min_r by exact H. unfold k. now rewrite firstn_all, firstn_all2.
Qed.

(** X10.  Every line of the alert table is highlighted: its seven cells
    carry the red style when the row is CRITICAL and the yellow style when
    it is WARNING, and no line is left unstyled. *)
Theorem alert_lines_highlighted (loaded : DataFrame) (d : Dashboard)
    (table : list (AlertCols * list string)) (top : list PriorityAction) :
  dashboard sort_values loaded = Rendered d ->
  alerts_panel d = AlertsTable table top ->
  forall cols css, In (cols, css) table ->
    (al_STOCK_STATUS cols = "CRITICAL"
     /\ css = repeat "background-color: #ffcdd2" 7)
    \/ (al_STOCK_STATUS cols = "WARNING"
        /\ css = repeat "background-color: #fff9c4" 7).
Proof.
  intros Hrun Hpanel cols css Hin.
  apply (dashboard_rendered sort_values) in Hrun as (_ & _ & Ha & _).
  rewrite Ha in Hpanel.
  apply render_alerts_table in Hpanel as (_ & -> & _).
  apply in_map_iff in Hin as (r & Heq & Hin).
  injection Heq as <- <-.
  apply (alerts_df_in sort_values sort_values_ok) in Hin as [_ [Hs | Hs]];
    unfold highlight_status; cbn [display_cols al_STOCK_STATUS]; rewrite Hs;
    [left | right]; split; reflexivity.
Qed.

(** X11.  The alert list is exactly the derived rows whose horizon is at
    most 5.0 days. *)
Theorem alerts_are_horizon_at_most_5 (loaded : DataFrame) (r : Row) :
  In r (alerts_df sort_values (derive loaded)) <->
  In r (derive loaded)
  /\ exists q : Q, DAYS_UNTIL_STOCKOUT r = Fin q /\ q <= 5.
Proof.
  rewrite (alerts_df_in sort_values sort_values_ok), <- isin_alert.
  split; intros [Hin H]; (split; [exact Hin | ]).
  - pose proof Hin as Hd. apply in_derive in Hd as (r0 & _ & ->).
    rewrite derive_row_days in *. eexists. split; [reflexivity | ].
    destruct (derived_alert loaded _ Hin) as [Heq | [H2 H5]].
    + rewrite derive_row_days in Heq. rewrite H in Heq. symmetry in Heq.
      now apply Qle_bool_iff in Heq.
    + rewrite derive_row_days in H2. cbn in H2. apply Qle_bool_iff in H2. lra.
  - destruct H as (q & Hq & Hle).
    destruct (derived_alert loaded _ Hin) as [-> | [H2 H5]].
    + rewrite Hq. cbn. now apply Qle_bool_iff.
    + rewrite Hq in H5. cbn in H5. apply Qle_bool_false in H5. lra.
Qed.

Lemma critical_of_alerts (df : DataFrame) :
  List.length (filter (status_is "CRITICAL") (alerts_df sort_values df)) =
  List.length (filter (status_is "CRITICAL") df).
Proof.
  transitivity
    (List.length
       (filter (status_is "CRITICAL")
          (filter (fun r => isin ["CRITICAL"; "WARNING"] (STOCK_STATUS r)) df))).
  - symmetry. apply Permutation_length, filter_perm.
    apply (alerts_df_perm sort_values sort_values_ok).
  - f_equal. apply filter_of_filter. intros r Hr.
    unfold status_is in Hr. apply String.eqb_eq in Hr.
    apply isin_alert. now left.
Qed.

Lemma alert_count (df : DataFrame) :
  List.length (alerts_df sort_values df) =
  (List.length (filter (status_is "CRITICAL") df)
   + List.length (filter (status_is "WARNING") df))%nat.
Proof.
  rewrite <- (Permutation_length (alerts_df_perm sort_values sort_values_ok df)).
  induction df as [ | r df IH]; [reflexivity | ].
  rewrite !filter_cons_length, IH.
  change (status_is "CRITICAL" r) with (String.eqb (STOCK_STATUS r) "CRITICAL").
  change (status_is "WARNING" r) with (String.eqb (STOCK_STATUS r) "WARNING").
  unfold isin. cbn [existsb].
  destruct (String.eqb (STOCK_STATUS r) "CRITICAL") eqn:E1;
    destruct (String.eqb (STOCK_STATUS r) "WARNING") eqn:E2;
    cbn [orb]; try lia.
  apply String.eqb_eq in E1, E2. congruence.
Qed.

(** X12.  The alert section agrees with the headline counts: the "all
    healthy" message is shown exactly when the critical and warning counts
    are both 0; otherwise the table has critical + warning lines and the
    narrative has min(3, critical) entries. *)
Theorem alerts_panel_matches_counts (loaded : DataFrame) (d : Dashboard) :
  dashboard sort_values loaded = Rendered d ->
  match alerts_panel d with
  | AllHealthy message =>
      message = all_healthy_message
      /\ critical_count d = 0%nat /\ warning_count d = 0%nat
  | AlertsTable table top =>
      List.length table = (critical_count d + warning_count d)%nat
      /\ (0 < critical_count d + warning_count d)%nat
      /\ List.length top = Nat.min 3 (critical_count d)
  end.
Proof.
  intro Hrun.
  pose proof (dashboard_rendered_counts loaded d Hrun)
    as (_ & _ & Hc & Hw & _ & _).
  apply (dashboard_rendered sort_values) in Hrun as (_ & _ & -> & _).
  pose proof (alert_count (derive loaded)) as Hn.
  pose proof (critical_of_alerts (derive loaded)) as Hk.
  rewrite <- Hc in Hn, Hk. rewrite <- Hw in Hn. clear Hc Hw.
  unfold render_alerts.
  destruct (alerts_df sort_values (derive loaded)) as [ | r alerts] eqn:E.
  - cbn in Hn |- *. repeat split; lia.
  - cbn [List.length Nat.ltb Nat.leb] in *.
    rewrite !length_map. split; [exact Hn | split; [lia | ]].
    unfold top_critical, head. now rewrite length_firstn, Hk.
Qed.

(** X13.  The reorder section is consistent: it is shown with at least one
    line, each line asks for at least one unit, the total is the int64
    sum of the lines' quantities and, when their sum is below 2^63, at
    least the number of lines; the critical figure is at most the number
    of lines and at most the headline critical count, and the CSV has the
    seven-column header and one seven-cell line per table line, in table
    order. *)
Theorem reorder_panel_invariants (loaded : DataFrame) (d : Dashboard)
    (table : list ReorderCols) (n : nat) (total : Z) (crit : nat) (csv : Csv) :
  dashboard sort_values loaded = Rendered d ->
  reorder_panel d = ReorderTable table n total crit csv ->
  (0 < n)%nat
  /\ Forall (fun c => (1 <= ro_SUGGESTED_REORDER_QTY c)%Z) table
  /\ total = int64_wrap (zsum (map ro_SUGGESTED_REORDER_QTY table))
  /\ ((zsum (map ro_SUGGESTED_REORDER_QTY table) < 2 ^ 63)%Z ->
      (Z.of_nat n <= total)%Z)
  /\ (crit <= n)%nat
  /\ (crit <= critical_count d)%nat
  /\ List.length (csv_header csv) = 7%nat
  /\ List.length (csv_lines csv) = n
  /\ Forall (fun line => List.length line = 7%nat) (csv_lines csv)
  /\ csv_lines csv = map csv_line table.
Proof.
  intros Hrun Hpanel.
  pose proof (dashboard_rendered_counts loaded d Hrun)
    as (_ & _ & Hc & _).
  apply (dashboard_rendered sort_values) in Hrun as (_ & _ & _ & Hr).
  rewrite Hr in Hpanel.
  apply render_reorder_table in Hpanel as (Hne & -> & -> & -> & -> & ->).
  set (rows := reorder_df sort_values (derive loaded)) in *.
  assert (Hpos : Forall (fun r => (1 <= SUGGESTED_REORDER_QTY r)%Z) rows).
  { apply Forall_forall. intros r Hin.
    apply (reorder_df_in sort_values sort_values_ok) in Hin as [_ H]. lia. }
  split; [destruct rows; [congruence | cbn; lia] | ].
  split; [now apply Forall_map | ].
  assert (Hlen : (Z.of_nat (List.length rows)
                  <= zsum (map SUGGESTED_REORDER_QTY rows))%Z).
  { rewrite <- (length_map SUGGESTED_REORDER_QTY rows).
    apply zsum_at_least_length. now apply Forall_map. }
  split; [unfold series_sum; now rewrite map_map | ].
  split.
  { rewrite map_map.
    change (fun x => ro_SUGGESTED_REORDER_QTY (reorder_cols x))
      with SUGGESTED_REORDER_QTY.
    intro Hlt. unfold series_sum. rewrite int64_wrap_small; lia. }
  split; [apply filter_length_le | ].
  split.
  { rewrite Hc. subst rows.
    rewrite <- (Permutation_length
                  (filter_perm (status_is "CRITICAL") _ _
                     (reorder_df_perm sort_values sort_values_ok (derive loaded)))).
    apply filter_filter_length_le. }
  split; [reflexivity | ].
  split; [cbn; now rewrite !length_map | ].
  split; [ | reflexivity].
  cbn. apply Forall_map, Forall_map, Forall_forall. reflexivity.
Qed.

End DashboardInvariants.

(** ** The heatmap grid, continued *)

(** X14.  The pivot is a full rectangular grid: one line of cells per item
    label and one cell per location label in each line; the labels are
    the distinct items and the distinct locations of the frame, each
    once; and every (item, location) of the two label lists has a cell,
    with data or missing. *)
Theorem pivot_table_grid (df : DataFrame) :
  let pt := pivot_table df in
  List.length (pt_values pt) = List.length (pt_index pt)
  /\ Forall (fun cells => List.length cells = List.length (pt_columns pt))
            (pt_values pt)
  /\ NoDup (pt_index pt)
  /\ NoDup (pt_columns pt)
  /\ (forall item, In item (pt_index pt) <-> exists r, In r df /\ ITEM r = item)
  /\ (forall location,
        In location (pt_columns pt) <-> exists r, In r df /\ LOCATION r = location)
  /\ (forall item location,
        In item (pt_index pt) -> In location (pt_columns pt) ->
        pt_cell pt item location =
          Some (group_mean (horizons_of df item location)))
  /\ List.length (applymap_color_days pt) = List.length (pt_index pt).
Proof.
  intro pt. subst pt. cbn [pivot_table pt_values pt_index pt_columns].
  split; [now rewrite length_map | ].
  split.
  { apply Forall_map, Forall_forall. intros i _. apply length_map. }
  split; [unfold sorted_unique; apply NoDup_nodup | ].
  split; [unfold sorted_unique; apply NoDup_nodup | ].
  split.
  { intro item. rewrite sorted_unique_in, in_map_iff.
    split; intros (r & H1 & H2); exists r; tauto. }
  split.
  { intro location. rewrite sorted_unique_in, in_map_iff.
    split; intros (r & H1 & H2); exists r; tauto. }
  split.
  { intros item location Hi Hl. rewrite pt_cell_pivot_table.
    destruct (index_of_in _ _ Hi) as [i ->].
    destruct (index_of_in _ _ Hl) as [j ->]. reflexivity. }
  unfold applymap_color_days, pivot_table. cbn [pt_values].
  now rewrite !length_map.
Qed.

(** ** The further statements at the example snapshot *)

Lemma headline_counts_partition_witness :
  exists d,
    dashboard stable_sort_values example_frame = Rendered d
    /\ (critical_count d + warning_count d + healthy_count d + overstock_count d)%nat
       = 5%nat
    /\ loaded_items d = 5%nat.
Proof.
  eexists. split; [reflexivity | ].
  destruct (headline_counts_partition stable_sort_values example_frame _ eq_refl)
    as (Hsum & Hlen & _).
  split; [rewrite Hsum | ]; exact Hlen.
Defined.

Lemma alerts_critical_first_witness :
  let alerts := alerts_df stable_sort_values (derive example_frame) in
  top_critical alerts = firstn 1 alerts.
Proof.
  intro alerts.
  destruct (alerts_critical_first stable_sort_values stable_sort_values_contract
              example_frame) as (_ & Htop).
  exact Htop.
Defined.

Lemma alert_lines_highlighted_witness :
  exists d table top,
    dashboard stable_sort_values example_frame = Rendered d
    /\ alerts_panel d = AlertsTable table top
    /\ forall cols css, In (cols, css) table ->
         (al_STOCK_STATUS cols = "CRITICAL"
          /\ css = repeat "background-color: #ffcdd2" 7)
         \/ (al_STOCK_STATUS cols = "WARNING"
             /\ css = repeat "background-color: #fff9c4" 7).
Proof.
  do 3 eexists. split; [reflexivity | split; [reflexivity | ]].
  apply (alert_lines_highlighted stable_sort_values stable_sort_values_contract
           example_frame _ _ _ eq_refl eq_refl).
Defined.

Lemma alerts_are_horizon_at_most_5_witness :
  let r := derive_row (loaded_row "Clinic_A" "Gloves" 12 3 0) in
  In r (alerts_df stable_sort_values (derive example_frame)).
Proof.
  intro r.
  apply (alerts_are_horizon_at_most_5 stable_sort_values
           stable_sort_values_contract example_frame r).
  split.
  - cbn. tauto.
  - exists (40 # 10). split; [reflexivity | ]. unfold Qle. cbn. lia.
Defined.

Lemma alerts_panel_matches_counts_witness :
  exists d table top,
    dashboard stable_sort_values example_frame = Rendered d
    /\ alerts_panel d = AlertsTable table top
    /\ List.length table = (critical_count d + warning_count d)%nat
    /\ List.length top = Nat.min 3 (critical_count d).
Proof.
  do 3 eexists. split; [reflexivity | split; [reflexivity | ]].
  pose proof (alerts_panel_matches_counts stable_sort_values
                stable_sort_values_contract example_frame _ eq_refl) as H.
  cbn [alerts_panel] in H.
  destruct H as (Hn & _ & Hk). exact (conj Hn Hk).
Defined.

Lemma reorder_panel_invariants_witness :
  exists d table n total crit csv,
    dashboard stable_sort_values example_frame = Rendered d
    /\ reorder_panel d = ReorderTable table n total crit csv
    /\ (Z.of_nat n <= total)%Z
    /\ (crit <= n)%nat
    /\ List.length (csv_lines csv) = n.
Proof.
  do 6 eexists. split; [reflexivity | split; [reflexivity | ]].
  destruct (reorder_panel_invariants stable_sort_values
              stable_sort_values_contract example_frame _ _ _ _ _ _
              eq_refl eq_refl)
    as (_ & _ & _ & Ht & Hc & _ & _ & Hl & _).
  split; [apply Ht; vm_compute; reflexivity | exact (conj Hc Hl)].
Defined.

(** * The entry pages (lines 206-425)

    The Add page and the Delete page, and the column resolution that the
    Edit page and the Delete page share.  A page is a function of what
    its widgets return and of the session, to the trace of what it shows
    and sends.  Titles, rules and captions carry no data and are left
    out.  [session.sql(q).collect()] is a parameter: [None] when the
    statement succeeds, [Some e] when it raises an exception whose text
    is [e]. *)

From Stdlib Require Import Ascii DecimalString.

(** ** Text *)

Definition nl : string := String (ascii_of_nat 10) EmptyString.

(** [str(n)] of a Python int. *)
Definition str_int (z : Z) : string := NilZero.string_of_int (Z.to_int z).

(** What an f-string [{n:0wd}] does for a non-negative [n]: zeros on the
    left up to the width. *)
Fixpoint zeros (n : nat) : string :=
  match n with
  | O => EmptyString
  | S n' => String "0" (zeros n')
  end.

Definition zero_pad (width : nat) (n : nat) : string :=
  let digits := str_int (Z.of_nat n) in
  (zeros (width - String.length digits) ++ digits)%string.

(** [datetime.date]; [str(d)] is [d.isoformat()], YYYY-MM-DD. *)
Record date : Type := mkDate { year : nat; month : nat; day : nat }.

Definition isoformat (d : date) : string :=
  (zero_pad 4 (year d) ++ "-" ++ zero_pad 2 (month d) ++ "-"
   ++ zero_pad 2 (day d))%string.

(** What a page shows and sends, in order. *)
Inductive ui_event : Type :=
| UiMetric (label : string) (value : Z)
| UiMarkdown (text : string)
| UiSuccess (text : string)
| UiWarning (text : string)
| UiError (text : string)
| UiBalloons
| UiSql (statement : string)          (* session.sql(statement).collect() *)
| UiException (kind : string).        (* an exception no handler catches *)

(** The statements a trace sends to the session. *)
Definition statements (trace : list ui_event) : list string :=
  flat_map (fun e => match e with UiSql q => [q] | _ => [] end) trace.

(** ** Add page (lines 206-257) *)

(** What the widgets of [add_form] return.  The number inputs carry
    [min_value] 0, and 1 for the lead time. *)
Record AddForm : Type := mkAddForm {
  entry_date : date;
  location : string;
  item : string;
  opening_stock : Z;
  received : Z;
  issued : Z;
  lead_time : Z;
  reorder_level : Z;
  submitted : bool
}.

(** Lines 236-243. *)
Definition insert_query (entry_date : date) (location item : string)
    (opening_stock received issued closing_stock lead_time reorder_level : Z)
    : string :=
  (nl ++ "                    INSERT INTO daily_stock " ++ nl ++
  "                    (DATE, LOCATION, ITEM, OPENING_STOCK, RECEIVED, ISSUED, " ++
  nl ++
  "                     CLOSING_STOCK, LEAD_TIME_DAYS, REORDER_LEVEL)" ++
  nl ++ "                    VALUES " ++ nl ++ "                    ('" ++
  isoformat entry_date ++ "', '" ++ location ++ "', '" ++ item ++ "', " ++
  str_int opening_stock ++ ", " ++ nl ++ "                     " ++
  str_int received ++ ", " ++ str_int issued ++ ", " ++
  str_int closing_stock ++ ", " ++ str_int lead_time ++ ", " ++
  str_int reorder_level ++ ")" ++ nl ++ "                    ")%string.

(** Lines 246-254. *)
Definition added_message (entry_date : date) (location item : string)
    (closing_stock : Z) : string :=
  (nl ++ "                    ✅ **Entry Added Successfully!**" ++ nl ++
  "                    - Date: " ++ isoformat entry_date ++ nl ++
  "                    - Location: " ++ location ++ nl ++
  "                    - Item: " ++ item ++ nl ++
  "                    - Closing Stock: " ++ str_int closing_stock ++ nl ++
  "                    " ++ nl ++
  "                    💡 Dynamic Table will update within 1 min." ++ nl ++
  "                    ")%string.

Definition required_message : string := "❌ Location and Item are required!".

Definition error_message (e : string) : string := ("❌ Error: " ++ e)%string.

(** Line 224. *)
Definition closing_of (opening_stock received issued : Z) : Z :=
  (opening_stock + received - issued)%Z.

(** [not s] for a Python string. *)
Definition is_blank (s : string) : bool := String.eqb s "".

(** Lines 212-257. *)
Definition add_entry_page (sql : string -> option string) (f : AddForm)
    : list ui_event :=
  let closing_stock := closing_of (opening_stock f) (received f) (issued f) in
  UiMetric "🔢 Closing Stock (Calculated)" closing_stock ::
  (if submitted f then
     if is_blank (location f) || is_blank (item f) then
       [UiError required_message]
     else
       let q := insert_query (entry_date f) (location f) (item f)
                  (opening_stock f) (received f) (issued f) closing_stock
                  (lead_time f) (reorder_level f) in
       UiSql q ::
       match sql q with
       | None =>
           [UiSuccess (added_message (entry_date f) (location f) (item f)
                         closing_stock);
            UiBalloons]
       | Some e => [UiError (error_message e)]
       end
   else []).

(** ** Column resolution (lines 286-297 and 384-388) *)

(** A Python dict with string keys, in insertion order. *)
Definition dict : Type := list (string * string).

Fixpoint dict_set (d : dict) (k v : string) : dict :=
  match d with
  | [] => [(k, v)]
  | (k', v') :: d' =>
      if String.eqb k' k then (k, v) :: d' else (k', v') :: dict_set d' k v
  end.

Fixpoint dict_get (d : dict) (k : string) : option string :=
  match d with
  | [] => None
  | (k', v') :: d' => if String.eqb k' k then Some v' else dict_get d' k
  end.

(** [d.get(k, default)]. *)
Definition get_or (d : dict) (k default : string) : string :=
  match dict_get d k with
  | Some v => v
  | None => default
  end.

(** [str.upper] on ASCII text. *)
Definition ascii_upper_char (c : ascii) : ascii :=
  let n := nat_of_ascii c in
  if ((97 <=? n) && (n <=? 122))%nat then ascii_of_nat (n - 32) else c.

Fixpoint ascii_upper (s : string) : string :=
  match s with
  | EmptyString => EmptyString
  | String c s' => String (ascii_upper_char c) (ascii_upper s')
  end.

(** The columns of the Edit page (lines 289-297) and of the Delete page
    (lines 385-388). *)
Record EditColumns : Type := mkEditColumns {
  ed_date_col : string;
  ed_location_col : string;
  ed_item_col : string;
  ed_opening_col : string;
  ed_received_col : string;
  ed_issued_col : string;
  ed_closing_col : string;
  ed_lead_col : string;
  ed_reorder_col : string
}.

Record DeleteColumns : Type := mkDeleteColumns {
  dl_date_col : string;
  dl_location_col : string;
  dl_item_col : string;
  dl_closing_col : string
}.

Section ColumnResolution.

(** [str.upper]. *)
Variable upper : string -> string.

(** [{col.upper(): col for col in columns}]: a later column replaces an
    earlier one with the same upper-cased name. *)
Definition upper_map (columns : list string) : dict :=
  fold_left (fun d col => dict_set d (upper col) col) columns [].

(** [list(columns)[i] if len(columns) > i else name]. *)
Definition positional (columns : list string) (i : nat) (name : string) : string :=
  nth i columns name.

(** [cols.get(name, list(columns)[i] if len(columns) > i else name)]. *)
Definition edit_col (columns : list string) (i : nat) (name : string) : string :=
  get_or (upper_map columns) name (positional columns i name).

Definition edit_columns (columns : list string) : EditColumns :=
  mkEditColumns
    (edit_col columns 0 "DATE")
    (edit_col columns 1 "LOCATION")
    (edit_col columns 2 "ITEM")
    (edit_col columns 3 "OPENING_STOCK")
    (edit_col columns 4 "RECEIVED")
    (edit_col columns 5 "ISSUED")
    (edit_col columns 6 "CLOSING_STOCK")
    (edit_col columns 7 "LEAD_TIME_DAYS")
    (edit_col columns 8 "REORDER_LEVEL").

(** [cols.get(name, name)]. *)
Definition delete_col (columns : list string) (name : string) : string :=
  get_or (upper_map columns) name name.

Definition delete_columns (columns : list string) : DeleteColumns :=
  mkDeleteColumns
    (delete_col columns "DATE")
    (delete_col columns "LOCATION")
    (delete_col columns "ITEM")
    (delete_col columns "CLOSING_STOCK").

End ColumnResolution.

(** ** Delete page (lines 367-425) *)

(** A cell of the frame of [daily_stock]: text (a date comes as the text
    [str] gives it) or an integer. *)
Inductive value : Type :=
| VText (s : string)
| VInt (z : Z).

(** [str(v)], [astype(str)] and [{v}] in an f-string. *)
Definition str (v : value) : string :=
  match v with
  | VText s => s
  | VInt z => str_int z
  end.

(** A frame with distinct column names: the names, and the rows as the
    lists of their cells. *)
Record Frame : Type := mkFrame {
  columns : list string;
  records : list (list value)
}.

(** [df.empty]. *)
Definition frame_empty (f : Frame) : bool :=
  match columns f, records f with
  | [], _ => true
  | _, [] => true
  | _, _ => false
  end.

(** [row[col]]; [None] stands for the [KeyError] of a name that is no
    column. *)
Definition cell_of (f : Frame) (row : list value) (col : string) : option value :=
  match index_of col (columns f) with
  | Some i => nth_error row i
  | None => None
  end.

(** Lines 390-395, for one row: [None] stands for the [KeyError] of a
    missing column or the [TypeError] of adding text to a non-text
    location or item. *)
Definition delete_display (f : Frame) (cols : DeleteColumns)
    (row : list value) : option string :=
  match cell_of f row (dl_date_col cols),
        cell_of f row (dl_location_col cols),
        cell_of f row (dl_item_col cols),
        cell_of f row (dl_closing_col cols) with
  | Some d, Some (VText l), Some (VText i), Some c =>
      Some (str d ++ " | " ++ l ++ " | " ++ i ++ " | Stock: " ++ str c)%string
  | _, _, _, _ => None
  end.

Fixpoint all_some {A : Type} (l : list (option A)) : option (list A) :=
  match l with
  | [] => Some []
  | None :: _ => None
  | Some x :: l' => option_map (cons x) (all_some l')
  end.

(** [st.selectbox(label, options)]: the option the user picked, the first
    one when nothing was picked. *)
Definition selectbox (options : list string) (choice : nat) : string :=
  nth choice options (List.hd EmptyString options).

(** [df[df['display'] == selected].iloc[0]]. *)
Fixpoint first_match (rows : list (list value)) (displays : list string)
    (selected : string) : option (list value) :=
  match rows, displays with
  | row :: rows', d :: displays' =>
      if String.eqb d selected then Some row
      else first_match rows' displays' selected
  | _, _ => None
  end.

(** Lines 413-418. *)
Definition delete_sql (cols : DeleteColumns)
    (date_value location_value item_value : string) : string :=
  (nl ++ "                DELETE FROM daily_stock" ++ nl ++
  "                WHERE " ++ dl_date_col cols ++ " = '" ++ date_value ++
  "'" ++ nl ++ "                  AND " ++ dl_location_col cols ++
  " = '" ++ location_value ++ "'" ++ nl ++ "                  AND " ++
  dl_item_col cols ++ " = '" ++ item_value ++ "'" ++ nl ++
  "                ")%string.

Definition permanent_warning : string := "⚠️ **Warning:** Deletion is permanent!".

Definition no_entries_message : string := "No entries found!".

Definition deleted_message : string :=
  "✅ Entry deleted! Dynamic Table will update within 1 min.".

Section DeletePage.

Variable upper : string -> string.
Variable sql : string -> option string.

(** The row picked for deletion (lines 384-398): [None] when the labels
    cannot be built. *)
Definition delete_row (delete_df : Frame) (choice : nat) : option (list value) :=
  let cols := delete_columns upper (columns delete_df) in
  match all_some (map (delete_display delete_df cols) (records delete_df)) with
  | Some displays =>
      first_match (records delete_df) displays (selectbox displays choice)
  | None => None
  end.

(** Lines 371-425, from the frame that line 380 loads.  [confirm] is the
    checkbox; [clicked] says whether the user presses the button, which
    [disabled=not confirm] lets through only when the box is ticked. *)
Definition delete_page (delete_df : Frame) (choice : nat)
    (confirm clicked : bool) : list ui_event :=
  UiWarning permanent_warning ::
  (if frame_empty delete_df then [UiWarning no_entries_message]
   else
     let cols := delete_columns upper (columns delete_df) in
     match delete_row delete_df choice with
     | None => [UiException "display"]
     | Some row =>
         match cell_of delete_df row (dl_date_col cols),
               cell_of delete_df row (dl_location_col cols),
               cell_of delete_df row (dl_item_col cols),
               cell_of delete_df row (dl_closing_col cols) with
         | Some d, Some l, Some i, Some c =>
             [UiMarkdown ("**Date:** " ++ str d);
              UiMarkdown ("**Location:** " ++ str l);
              UiMarkdown ("**Item:** " ++ str i);
              UiMarkdown ("**Stock:** " ++ str c)]
             ++ (if clicked && confirm then
                   let q := delete_sql cols (str d) (str l) (str i) in
                   UiSql q ::
                   match sql q with
                   | None => [UiSuccess deleted_message]
                   | Some e => [UiError (error_message e)]
                   end
                 else [])
         | _, _, _, _ => [UiException "KeyError"]
         end
     end).

End DeletePage.

(** A frame as Snowflake returns it for the query of lines 374-379. *)
Definition stock_frame (rows : list (list value)) : Frame :=
  mkFrame ["DATE"; "LOCATION"; "ITEM"; "CLOSING_STOCK"] rows.

Definition stock_row (d l i : string) (c : Z) : list value :=
  [VText d; VText l; VText i; VInt c].

(** ** Properties of the entry pages *)

Lemma append_assoc (a b c : string) : ((a ++ b) ++ c = a ++ (b ++ c))%string.
Proof. induction a as [ | x a IH]; cbn; [reflexivity | now rewrite IH]. Qed.

Lemma is_blank_false (s : string) : is_blank s = false <-> s <> "".
Proof. unfold is_blank. apply String.eqb_neq. Qed.

(** X15.  The Add page sends nothing unless the form is submitted with a
    location and an item that are not empty, and then it sends exactly one
    INSERT, whose closing stock is opening + received - issued.  A blank
    location or item gets the "required" error; a statement that succeeds
    gets the balloons, and one that raises gets the error with the
    exception's text and no balloons. *)
Theorem add_entry_page_outcomes (sql : string -> option string) (f : AddForm) :
  let trace := add_entry_page sql f in
  let q := insert_query (entry_date f) (location f) (item f)
             (opening_stock f) (received f) (issued f)
             (closing_of (opening_stock f) (received f) (issued f))
             (lead_time f) (reorder_level f) in
  (forall s, In (UiSql s) trace ->
     submitted f = true /\ location f <> "" /\ item f <> "" /\ s = q)
  /\ (statements trace = [] \/ statements trace = [q])
  /\ (submitted f = true -> location f = "" \/ item f = "" ->
      statements trace = [] /\ In (UiError required_message) trace)
  /\ (submitted f = true -> location f <> "" -> item f <> "" ->
      statements trace = [q]
      /\ (sql q = None -> In UiBalloons trace)
      /\ (forall e, sql q = Some e ->
            In (UiError (error_message e)) trace /\ ~ In UiBalloons trace)).
Proof.
  intros trace q. subst trace. unfold add_entry_page. fold q. clearbody q.
  destruct (submitted f);
    destruct (is_blank (location f)) eqn:El;
    destruct (is_blank (item f)) eqn:Ei;
    destruct (sql q) as [e | ] eqn:Es;
    repeat match goal with
           | H : is_blank _ = true |- _ => apply String.eqb_eq in H
           | H : is_blank _ = false |- _ => apply is_blank_false in H
           end;
    cbn [orb statements flat_map app In];
    intuition (try discriminate; try congruence).
Qed.

Lemma add_entry_page_outcomes_witness :
  let f := mkAddForm (mkDate 2025 3 7) "Hospital_Mumbai" "Insulin_Vials"
             10 5 20 7 100 true in
  statements (add_entry_page (fun _ => None) f)
  = [insert_query (mkDate 2025 3 7) "Hospital_Mumbai" "Insulin_Vials"
       10 5 20 (-5) 7 100].
Proof.
  intro f.
  destruct (add_entry_page_outcomes (fun _ => None) f) as (_ & _ & _ & H).
  destruct H as (Hq & _); [reflexivity | discriminate | discriminate | ].
  exact Hq.
Defined.

(** X16.  The INSERT text does not escape quotes: moving the text
    [', '] together with what follows it from the end of the location to
    the start of the item gives the same statement, so different entries
    can send one and the same INSERT. *)
Theorem insert_query_quotes_not_escaped (d : date) (l x i : string)
    (opening received_ issued_ closing lead reorder : Z) :
  insert_query d (l ++ "', '" ++ x) i opening received_ issued_ closing lead reorder
  = insert_query d l (x ++ "', '" ++ i) opening received_ issued_ closing lead reorder.
Proof.
  unfold insert_query. now rewrite !append_assoc.
Qed.

Lemma dict_get_set (d : dict) (k v k' : string) :
  dict_get (dict_set d k v) k' =
  if String.eqb k k' then Some v else dict_get d k'.
Proof.
  induction d as [ | [k0 v0] d IH]; cbn.
  - reflexivity.
  - destruct (String.eqb_spec k0 k) as [-> | Hne]; cbn.
    + destruct (String.eqb k k'); reflexivity.
    + rewrite IH.
      destruct (String.eqb_spec k0 k') as [-> | Hne'].
      * destruct (String.eqb_spec k k'); [congruence | reflexivity].
      * reflexivity.
Qed.

Section ColumnResolutionFacts.

Variable upper : string -> string.

Lemma upper_map_snoc (columns : list string) (col : string) :
  upper_map upper (columns ++ [col]) =
  dict_set (upper_map upper columns) (upper col) col.
Proof. unfold upper_map. now rewrite fold_left_app. Qed.

(** X17.  The case-insensitive lookup of lines 286 and 384 gives, for a
    wanted name, the last column whose upper-cased name is the wanted
    one, and gives nothing exactly when no column has it. *)
Theorem upper_map_lookup (columns : list string) (name : string) :
  match dict_get (upper_map upper columns) name with
  | Some col =>
      exists before after,
        columns = (before ++ col :: after)%list
        /\ upper col = name
        /\ forall c, In c after -> upper c <> name
  | None => forall c, In c columns -> upper c <> name
  end.
Proof.
  induction columns as [ | col columns IH] using rev_ind.
  - cbn. tauto.
  - rewrite upper_map_snoc, dict_get_set.
    destruct (String.eqb_spec (upper col) name) as [Heq | Hne].
    + exists columns, []. repeat split; [exact Heq | intros c []].
    + destruct (dict_get (upper_map upper columns) name) as [c0 | ].
      * destruct IH as (before & after & -> & Hup & Hlast).
        exists before, (after ++ [col])%list.
        split; [now rewrite <- app_assoc | split; [exact Hup | ]].
        intros c Hc. apply in_app_or in Hc as [Hc | [<- | []]]; auto.
      * intros c Hc. apply in_app_or in Hc as [Hc | [<- | []]]; auto.
Qed.

(** X18.  Column names of the Edit page: a wanted name resolves to a
    column of the frame with that upper-cased name when there is one;
    otherwise to whatever column stands at the wanted position, if the
    frame has that many columns; otherwise to the wanted name itself. *)
Theorem edit_col_resolution (columns : list string) (i : nat) (name : string) :
  ((exists c, In c columns /\ upper c = name) ->
     In (edit_col upper columns i name) columns
     /\ upper (edit_col upper columns i name) = name)
  /\ ((forall c, In c columns -> upper c <> name) ->
      (i < List.length columns)%nat ->
      nth_error columns i = Some (edit_col upper columns i name))
  /\ ((forall c, In c columns -> upper c <> name) ->
      (List.length columns <= i)%nat ->
      edit_col upper columns i name = name).
Proof.
  unfold edit_col, get_or, positional.
  pose proof (upper_map_lookup columns name) as H.
  destruct (dict_get (upper_map upper columns) name) as [col | ].
  - destruct H as (before & after & -> & Hup & _).
    assert (Hin : In col (before ++ col :: after)%list)
      by (apply in_or_app; right; now left).
    split; [tauto | ].
    split; intros Hno; exfalso; apply (Hno col Hin Hup).
  - split; [intros (c & Hc & Hu); exfalso; apply (H c Hc Hu) | ].
    split; intros _ Hlen.
    + now apply nth_error_nth'.
    + now apply nth_overflow.
Qed.

End ColumnResolutionFacts.

Lemma upper_map_lookup_witness :
  dict_get (upper_map ascii_upper ["date"; "Date"; "item"]) "DATE" = Some "Date"
  /\ exists before after,
       ["date"; "Date"; "item"] = (before ++ "Date" :: after)%list
       /\ ascii_upper "Date" = "DATE"
       /\ forall c, In c after -> ascii_upper c <> "DATE".
Proof.
  split; [reflexivity | ].
  exact (upper_map_lookup ascii_upper ["date"; "Date"; "item"] "DATE").
Defined.

Lemma edit_col_resolution_witness :
  edit_col ascii_upper ["date"; "Location"; "ITEM"; "x"] 3 "OPENING_STOCK" = "x"
  /\ nth_error ["date"; "Location"; "ITEM"; "x"] 3
     = Some (edit_col ascii_upper ["date"; "Location"; "ITEM"; "x"] 3 "OPENING_STOCK").
Proof.
  split; [reflexivity | ].
  destruct (edit_col_resolution ascii_upper ["date"; "Location"; "ITEM"; "x"]
              3 "OPENING_STOCK") as (_ & H & _).
  apply H.
  - intros c [<- | [<- | [<- | [<- | []]]]]; discriminate.
  - cbn. lia.
Defined.

Lemma first_match_spec (rows : list (list value)) (displays : list string)
    (selected : string) (row : list value) :
  first_match rows displays selected = Some row ->
  exists k,
    nth_error rows k = Some row
    /\ nth_error displays k = Some selected
    /\ forall j, (j < k)%nat -> nth_error displays j <> Some selected.
Proof.
  revert displays. induction rows as [ | r rows IH]; intros [ | d displays];
    cbn; try discriminate.
  destruct (String.eqb_spec d selected) as [-> | Hne].
  - intro H. injection H as <-. exists 0%nat. repeat split. intros j Hj. lia.
  - intro H. destruct (IH _ H) as (k & H1 & H2 & H3).
    exists (S k). repeat split; [exact H1 | exact H2 | ].
    intros [ | j] Hj; cbn.
    + congruence.
    + apply H3. lia.
Qed.

Lemma all_some_length {A : Type} (l : list (option A)) (xs : list A) :
  all_some l = Some xs -> List.length xs = List.length l.
Proof.
  revert xs. induction l as [ | [a | ] l IH]; cbn; intros xs H.
  - injection H as <-. reflexivity.
  - destruct (all_some l) as [ys | ]; cbn in H; [ | discriminate].
    injection H as <-. cbn. now rewrite (IH ys).
  - discriminate.
Qed.

Lemma all_some_nth {A : Type} (l : list (option A)) (xs : list A) (k : nat) (x : A) :
  all_some l = Some xs -> nth_error xs k = Some x -> nth_error l k = Some (Some x).
Proof.
  revert xs k. induction l as [ | [a | ] l IH]; cbn; intros xs k H Hk.
  - injection H as <-. destruct k; discriminate.
  - destruct (all_some l) as [ys | ]; cbn in H; [ | discriminate].
    injection H as <-. destruct k as [ | k]; cbn in *.
    + congruence.
    + now apply (IH ys).
  - discriminate.
Qed.

Ltac trace_cases :=
  cbn; intuition (try discriminate; try congruence; try lia).

Section DeletePageFacts.

Variable upper : string -> string.
Variable sql : string -> option string.

(** X19.  The Delete page never sends a statement unless the frame has
    rows, the confirmation box is ticked and the button is pressed; it
    sends at most one statement; and on a frame without rows it shows
    only the "No entries found!" warning after the standing one. *)
Theorem delete_page_needs_confirmation (delete_df : Frame) (choice : nat)
    (confirm clicked : bool) :
  let trace := delete_page upper sql delete_df choice confirm clicked in
  (forall s, In (UiSql s) trace ->
     confirm = true /\ clicked = true /\ frame_empty delete_df = false)
  /\ (List.length (statements trace) <= 1)%nat
  /\ (frame_empty delete_df = true ->
      trace = [UiWarning permanent_warning; UiWarning no_entries_message]).
Proof.
  intro trace. subst trace. unfold delete_page.
  destruct (frame_empty delete_df); [trace_cases | ].
  destruct (delete_row upper delete_df choice) as [row | ]; [ | trace_cases].
  destruct (cell_of delete_df row _) as [d | ]; [ | trace_cases].
  destruct (cell_of delete_df row _) as [l | ]; [ | trace_cases].
  destruct (cell_of delete_df row _) as [i | ]; [ | trace_cases].
  destruct (cell_of delete_df row _) as [c | ]; [ | trace_cases].
  destruct clicked, confirm; cbn [andb]; try trace_cases.
  destruct (sql _); trace_cases.
Qed.

(** X20.  The row the Delete page acts on is the first row of the frame
    whose label equals the picked label.  When the labels are pairwise
    different it is the picked row itself; otherwise it can be an earlier
    row than the picked one. *)
Theorem delete_row_is_first_with_label (delete_df : Frame) (choice : nat)
    (row : list value) :
  delete_row upper delete_df choice = Some row ->
  exists (displays : list string) (k : nat),
    List.length displays = List.length (records delete_df)
    /\ nth_error (records delete_df) k = Some row
    /\ delete_display delete_df (delete_columns upper (columns delete_df)) row
       = Some (selectbox displays choice)
    /\ (forall j, (j < k)%nat ->
          nth_error displays j <> Some (selectbox displays choice))
    /\ ((choice < List.length displays)%nat -> (k <= choice)%nat)
    /\ ((choice < List.length displays)%nat -> NoDup displays -> k = choice).
Proof.
  unfold delete_row.
  destruct (all_some _) as [displays | ] eqn:E; [ | discriminate].
  intro H. apply first_match_spec in H as (k & Hrow & Hsel & Hfirst).
  exists displays, k.
  assert (Hlen : List.length displays = List.length (records delete_df)).
  { rewrite (all_some_length _ _ E). apply length_map. }
  assert (Hchoice : (choice < List.length displays)%nat ->
                    nth_error displays choice = Some (selectbox displays choice)).
  { intro Hc. unfold selectbox. now apply nth_error_nth'. }
  split; [exact Hlen | split; [exact Hrow | split; [ | split; [exact Hfirst | split]]]].
  - pose proof (all_some_nth _ _ _ _ E Hsel) as Hd.
    rewrite nth_error_map, Hrow in Hd. cbn in Hd. congruence.
  - intro Hc. destruct (Nat.le_gt_cases k choice) as [Hle | Hgt]; [exact Hle | ].
    exfalso. apply (Hfirst choice Hgt). now apply Hchoice.
  - intros Hc Hnd.
    apply (proj1 (NoDup_nth_error displays) Hnd).
    + apply nth_error_Some. congruence.
    + rewrite Hsel. symmetry. now apply Hchoice.
Qed.

End DeletePageFacts.

Section DeletePageOnStockFrames.

Variable upper : string -> string.
Variable sql : string -> option string.
Hypothesis upper_DATE : upper "DATE" = "DATE".
Hypothesis upper_LOCATION : upper "LOCATION" = "LOCATION".
Hypothesis upper_ITEM : upper "ITEM" = "ITEM".
Hypothesis upper_CLOSING_STOCK : upper "CLOSING_STOCK" = "CLOSING_STOCK".

Lemma delete_columns_stock_frame (rows : list (list value)) :
  delete_columns upper (columns (stock_frame rows)) =
  mkDeleteColumns "DATE" "LOCATION" "ITEM" "CLOSING_STOCK".
Proof.
  unfold delete_columns, delete_col, upper_map.
  cbn [fold_left columns stock_frame].
  rewrite upper_DATE, upper_LOCATION, upper_ITEM, upper_CLOSING_STOCK.
  reflexivity.
Qed.

Lemma delete_display_stock_row (rows : list (list value)) (d l i : string) (c : Z) :
  delete_display (stock_frame rows)
    (mkDeleteColumns "DATE" "LOCATION" "ITEM" "CLOSING_STOCK")
    (stock_row d l i c)
  = Some (d ++ " | " ++ l ++ " | " ++ i ++ " | Stock: " ++ str_int c)%string.
Proof. reflexivity. Qed.

(** X21.  The labels of the Delete page do not tell rows apart: a row
    whose location ends in [ | x] and the row with the same date and
    stock whose item starts with [x | ] carry one label.  When the first
    of the two comes first in the frame and the user picks the second,
    the page shows and deletes the first. *)
Theorem delete_label_collision (d l x i : string) (c : Z) :
  let first := stock_row d (l ++ " | " ++ x) i c in
  let second := stock_row d l (x ++ " | " ++ i) c in
  let delete_df := stock_frame [first; second] in
  delete_row upper delete_df 1 = Some first
  /\ statements (delete_page upper sql delete_df 1 true true)
     = [delete_sql (mkDeleteColumns "DATE" "LOCATION" "ITEM" "CLOSING_STOCK")
          d (l ++ " | " ++ x) i].
Proof.
  intros first second delete_df.
  assert (Hrow : delete_row upper delete_df 1 = Some first).
  { unfold delete_row. subst delete_df.
    rewrite delete_columns_stock_frame.
    cbn [records stock_frame map].
    subst first second. rewrite !delete_display_stock_row.
    cbn [all_some option_map selectbox nth first_match].
    rewrite !append_assoc. now rewrite String.eqb_refl. }
  split; [exact Hrow | ].
  unfold delete_page. rewrite Hrow.
  subst delete_df. rewrite delete_columns_stock_frame.
  subst first. cbn [frame_empty columns records stock_frame].
  cbn [dl_date_col dl_location_col dl_item_col dl_closing_col].
  change (cell_of _ (stock_row d (l ++ " | " ++ x) i c) "DATE") with (Some (VText d)).
  change (cell_of _ (stock_row d (l ++ " | " ++ x) i c) "LOCATION")
    with (Some (VText (l ++ " | " ++ x)%string)).
  change (cell_of _ (stock_row d (l ++ " | " ++ x) i c) "ITEM") with (Some (VText i)).
  change (cell_of _ (stock_row d (l ++ " | " ++ x) i c) "CLOSING_STOCK")
    with (Some (VInt c)).
  cbn [andb str app]. unfold statements.
  destruct (sql _); reflexivity.
Qed.

(** X22.  On a frame of [daily_stock] as the query returns it, with rows,
    a ticked box and a pressed button, the page sends exactly one DELETE,
    keyed by the date, location and item of the row it acts on. *)
Theorem delete_page_sends_key_of_row (rows : list (list value)) (choice : nat)
    (d l i : string) (c : Z) :
  delete_row upper (stock_frame rows) choice = Some (stock_row d l i c) ->
  statements (delete_page upper sql (stock_frame rows) choice true true)
  = [delete_sql (mkDeleteColumns "DATE" "LOCATION" "ITEM" "CLOSING_STOCK") d l i].
Proof.
  intro Hrow. unfold delete_page. rewrite Hrow.
  assert (Hne : frame_empty (stock_frame rows) = false).
  { destruct rows; [ | reflexivity].
    unfold delete_row in Hrow. cbn in Hrow. discriminate. }
  rewrite Hne, delete_columns_stock_frame.
  cbn [dl_date_col dl_location_col dl_item_col dl_closing_col].
  change (cell_of _ (stock_row d l i c) "DATE") with (Some (VText d)).
  change (cell_of _ (stock_row d l i c) "LOCATION") with (Some (VText l)).
  change (cell_of _ (stock_row d l i c) "ITEM") with (Some (VText i)).
  change (cell_of _ (stock_row d l i c) "CLOSING_STOCK") with (Some (VInt c)).
  cbn [andb str app]. unfold statements.
  destruct (sql _); reflexivity.
Qed.

End DeletePageOnStockFrames.

(** ** The entry pages at concrete inputs *)

Definition example_stock_frame : Frame :=
  stock_frame
    [stock_row "2025-03-07" "Clinic_A" "Gauze" 4;
     stock_row "2025-03-07" "Clinic_A" "Gloves" 12;
     stock_row "2025-03-06" "Clinic_B" "Gauze" 16].

Lemma delete_page_needs_confirmation_witness :
  (List.length
     (statements
        (delete_page ascii_upper (fun _ => None) example_stock_frame 1 false true))
   <= 1)%nat.
Proof.
  destruct (delete_page_needs_confirmation ascii_upper (fun _ => None)
              example_stock_frame 1 false true) as (_ & H & _).
  exact H.
Defined.

Lemma delete_row_is_first_with_label_witness :
  exists (displays : list string) (k : nat),
    List.length displays = 3%nat
    /\ nth_error (records example_stock_frame) k
       = Some (stock_row "2025-03-07" "Clinic_A" "Gloves" 12)
    /\ ((1 < List.length displays)%nat -> NoDup displays -> k = 1%nat).
Proof.
  destruct (delete_row_is_first_with_label ascii_upper example_stock_frame 1
              (stock_row "2025-03-07" "Clinic_A" "Gloves" 12) eq_refl)
    as (displays & k & Hlen & Hrow & _ & _ & _ & Hk).
  exists displays, k. exact (conj Hlen (conj Hrow Hk)).
Defined.

Lemma delete_label_collision_witness :
  let first := stock_row "2025-03-07" "Ward | East" "Gauze" 4 in
  let second := stock_row "2025-03-07" "Ward" "East | Gauze" 4 in
  delete_row ascii_upper (stock_frame [first; second]) 1 = Some first.
Proof.
  intros first second.
  destruct (delete_label_collision ascii_upper (fun _ => None)
              eq_refl eq_refl eq_refl eq_refl
              "2025-03-07" "Ward" "East" "Gauze" 4) as (H & _).
  exact H.
Defined.

Lemma delete_page_sends_key_of_row_witness :
  statements (delete_page ascii_upper (fun _ => None) example_stock_frame 2 true true)
  = [delete_sql (mkDeleteColumns "DATE" "LOCATION" "ITEM" "CLOSING_STOCK")
       "2025-03-06" "Clinic_B" "Gauze"].
Proof.
  apply (delete_page_sends_key_of_row ascii_upper (fun _ => None)
           eq_refl eq_refl eq_refl eq_refl
           (records example_stock_frame) 2 "2025-03-06" "Clinic_B" "Gauze" 16).
  reflexivity.
Defined.
